(** * apimsync: the Azure export / offramp staging pipeline and the sync endpoint

    A shallow embedding of [azureExport], [azureOfframp] and the helpers they
    call (Azure API Management side of the tool) and of [apimSync]
    (webserver.go), with the properties of the name normalisation, of the
    staging area and of the canonical mapping. *)

From Stdlib Require Import Ascii DecimalString.
From Stdlib Require String.
From stdpp Require Import base option list sorting strings gmap.

(** ** Go's [strings] package, on byte strings *)

Module strings.

(** [strings.HasPrefix(s, prefix)] *)
Definition HasPrefix (s prefix : string) : bool := String.prefix prefix s.

(** [strings.HasSuffix(s, suffix)]:
    [len(s) >= len(suffix) && s[len(s)-len(suffix):] == suffix] *)
Definition HasSuffix (s suffix : string) : bool :=
  (String.length suffix <=? String.length s)%nat &&
  String.eqb
    (String.substring (String.length s - String.length suffix)
                      (String.length suffix) s)
    suffix.

(** [strings.Index(s, substr)], [None] for Go's -1 *)
Fixpoint Index (s substr : string) : option nat :=
  if HasPrefix s substr then Some 0
  else match s with
       | "" => None
       | String _ rest => S <$> Index rest substr
       end.

(** [strings.Contains(s, substr)]: [Index(s, substr) >= 0] *)
Definition Contains (s substr : string) : bool :=
  match Index s substr with Some _ => true | None => false end.

End strings.

(** ** The version-suffix pattern

    [var re = regexp.MustCompile(`(-v\d+)$`)]: a hyphen, the letter v, one or
    more of the digits 0-9, then the end of the text ([$] without the [m]
    flag). *)

Definition isDigit (c : ascii) : bool :=
  (48 <=? nat_of_ascii c)%nat && (nat_of_ascii c <=? 57)%nat.

Fixpoint allDigits (s : string) : bool :=
  match s with
  | "" => true
  | String c rest => isDigit c && allDigits rest
  end.

(** The pattern matches at the start of [s]; being anchored at the end of the
    text, a match covers all of [s]. *)
Definition re_matchHere (s : string) : bool :=
  match s with
  | String c1 (String c2 (String d rest)) =>
      Ascii.eqb c1 "-" && Ascii.eqb c2 "v" && isDigit d && allDigits rest
  | _ => false
  end.

(** [re.ReplaceAllString(src, "")]: the text is scanned from the left and the
    first position where the pattern matches is where the match is cut out;
    after an end-anchored match nothing is left to scan. *)
Fixpoint re_ReplaceAllString (src : string) : string :=
  if re_matchHere src then ""
  else match src with
       | "" => ""
       | String c rest => String c (re_ReplaceAllString rest)
       end.

(** ** The data model (azure.go) *)

Module AzureServiceProperties.
Record t := mk {
  DeveloperPortalUrl : string;
  GatewayUrl : string;
  GatewayRegionalUrl : string;
  PortalUrl : string;
  PublisherEmail : string;
  PublisherName : string }.
Definition zero : t := mk "" "" "" "" "" "".
End AzureServiceProperties.

Module AzureService.
Record t := mk {
  Id : string;
  Name : string;
  Location : string;
  Properties : AzureServiceProperties.t }.
Definition zero : t := mk "" "" "" AzureServiceProperties.zero.
End AzureService.

Module AzureApiAuthenticationSettings.
Record t := mk {
  OAuth2 : string;
  OpenId : string;
  OAuth2AuthenticationSettings : list string;
  OpenIdAuthenticationSettings : list string }.
Definition zero : t := mk "" "" [] [].
End AzureApiAuthenticationSettings.

Module AzureApiSubscriptionKeyParameterNames.
Record t := mk { Header : string; Query : string }.
Definition zero : t := mk "" "".
End AzureApiSubscriptionKeyParameterNames.

Module AzureApiProperties.
Record t := mk {
  DisplayName : string;
  ApiRevision : string;
  Description : string;
  SubscriptionRequired : string;
  ServiceUrl : string;
  BackendId : string;
  Path : string;
  Protocols : list string;
  AuthenticationSettings : AzureApiAuthenticationSettings.t;
  SubscriptionKeyParameterNames : AzureApiSubscriptionKeyParameterNames.t;
  IsCurrent : bool;
  ApiRevisionDescription : string;
  ApiVersion : string }.
Definition zero : t :=
  mk "" "" "" "" "" "" "" [] AzureApiAuthenticationSettings.zero
     AzureApiSubscriptionKeyParameterNames.zero false "" "".
(** [p.DisplayName = v] *)
Definition setDisplayName (v : string) (p : t) : t :=
  mk v (ApiRevision p) (Description p) (SubscriptionRequired p)
     (ServiceUrl p) (BackendId p) (Path p) (Protocols p)
     (AuthenticationSettings p) (SubscriptionKeyParameterNames p)
     (IsCurrent p) (ApiRevisionDescription p) (ApiVersion p).
End AzureApiProperties.

Module AzureApi.
Record t := mk {
  Id : string;
  Type_ : string;
  Name : string;
  Properties : AzureApiProperties.t }.
Definition zero : t := mk "" "" "" AzureApiProperties.zero.
(** [api.Name = v] *)
Definition setName (v : string) (a : t) : t :=
  mk (Id a) (Type_ a) v (Properties a).
(** [api.Properties.DisplayName = v] *)
Definition setDisplayName (v : string) (a : t) : t :=
  mk (Id a) (Type_ a) (Name a)
     (AzureApiProperties.setDisplayName v (Properties a)).
Definition DisplayName (a : t) : string :=
  AzureApiProperties.DisplayName (Properties a).
Definition ApiVersion (a : t) : string :=
  AzureApiProperties.ApiVersion (Properties a).
Definition Path (a : t) : string :=
  AzureApiProperties.Path (Properties a).
End AzureApi.

Module AzureApis.
Record t := mk { Value : list AzureApi.t }.
Definition zero : t := mk [].
End AzureApis.

Module AzureApiSchemaProperties.
Record t := mk {
  Description : string;
  SchemaType : string;
  Document : string }.
Definition zero : t := mk "" "" "".
End AzureApiSchemaProperties.

Module AzureApiSchema.
(** The Go field [Type] is spelled [Type_] here. *)
Record t := mk {
  Id : string;
  Type_ : string;
  Name : string;
  Properties : AzureApiSchemaProperties.t }.
Definition zero : t := mk "" "" "" AzureApiSchemaProperties.zero.
(** [schema.Properties.Document = v] *)
Definition setDocument (v : string) (s : t) : t :=
  mk (Id s) (Type_ s) (Name s)
     (AzureApiSchemaProperties.mk
        (AzureApiSchemaProperties.Description (Properties s))
        (AzureApiSchemaProperties.SchemaType (Properties s)) v).
Definition SchemaType (s : t) : string :=
  AzureApiSchemaProperties.SchemaType (Properties s).
Definition Document (s : t) : string :=
  AzureApiSchemaProperties.Document (Properties s).
End AzureApiSchema.

Module AzureTokenResponse.
Record t := mk {
  AccessToken : string;
  ExpiresIn : string;
  ExpiresOn : string;
  ExtExpiresIn : string;
  NotBefore : string;
  Resource : string;
  TokenType : string }.
Definition zero : t := mk "" "" "" "" "" "" "".
End AzureTokenResponse.

Module AzureFlags.
Record t := mk {
  Subscription : string;
  ResourceGroup : string;
  ServiceName : string;
  Token : string;
  ApiName : string;
  OnlyNew : bool }.
End AzureFlags.

Module GeneralApi.
(** Modelled from the spec: the [GeneralApi] struct (the CanonicalApi of the
    specification) is declared in another file of the repository; its
    fields here are the twelve that [azureOfframp] assigns, which are the
    twelve the specification lists for a CanonicalApi. *)
Record t := mk {
  Name : string;
  DisplayName : string;
  Description : string;
  Version : string;
  OwnerEmail : string;
  OwnerName : string;
  DocumentationUrl : string;
  GatewayUrl : string;
  BasePath : string;
  PlatformId : string;
  PlatformName : string;
  PlatformResourceUri : string }.
End GeneralApi.

(** ** webserver.go: the sync request and response *)

Module ApimSyncInput.
Record t := mk { Offramp : string; Onramp : string }.
End ApimSyncInput.

Module ApimSyncOutput.
Record t := mk { Result : bool; Message : string }.
End ApimSyncOutput.

Module ApigeeFlags.
(** Modelled from the spec: [ApigeeFlags] is declared in another file of the
    repository; these are the fields the composite literal in [apimSync] sets. *)
Record t := mk { Project : string; Region : string }.
End ApigeeFlags.

Module AwsFlags.
(** Modelled from the spec: [AwsFlags] is declared in another file of the
    repository; these are the fields the composite literal in [apimSync] sets. *)
Record t := mk { Region : string; AccessKey : string; AccessSecret : string }.
End AwsFlags.

(** ** Name normalisation (azureExport, inside the loop) *)

(** The two [if]s that append the version tag. The first sets [newApiName],
    [api.Name] and the display name; the second the display name alone.
    The result is the local [newApiName] and the mutated loop variable. *)
Definition qualify (api : AzureApi.t) : string * AzureApi.t :=
  let newApiName := AzureApi.Name api in
  let '(newApiName, api) :=
    if negb (String.eqb (AzureApi.ApiVersion api) "")
       && negb (strings.HasSuffix newApiName (AzureApi.ApiVersion api))
    then
      let newApiName := AzureApi.Name api +:+ "-" +:+ AzureApi.ApiVersion api in
      let api := AzureApi.setName newApiName api in
      (newApiName,
       AzureApi.setDisplayName
         (AzureApi.DisplayName api +:+ " " +:+ AzureApi.ApiVersion api) api)
    else (newApiName, api) in
  let api :=
    if negb (String.eqb (AzureApi.ApiVersion api) "")
       && negb (strings.HasSuffix (AzureApi.DisplayName api) (AzureApi.ApiVersion api))
    then
      AzureApi.setDisplayName
        (AzureApi.DisplayName api +:+ " " +:+ AzureApi.ApiVersion api) api
    else api in
  (newApiName, api).

(** ** The staging area: a store of files and directories keyed by the path
    strings the program passes to package [os]. Creating a directory and
    writing a file do not run out of space or permissions; a write fails only
    on a path that is a directory. *)

Record FS := mkFS {
  files : gmap string string;
  dirs : gset string }.

Inductive File :=
| RegularFile (data : string)
| Directory.

(** [io.ReadAll(f)] with the error dropped: reading a directory gives no
    bytes. *)
Definition io_ReadAll (f : File) : string :=
  match f with RegularFile data => data | Directory => "" end.

Definition lookupPath (fs : FS) (name : string) : option File :=
  match files fs !! name with
  | Some data => Some (RegularFile data)
  | None => if decide (name ∈ dirs fs) then Some Directory else None
  end.

(** The prefixes of a path that end just before a separator, shortest first,
    then the path itself: the directories [os.MkdirAll] walks through. *)
Fixpoint pathPrefixes (walked rest : string) : list string :=
  match rest with
  | "" => [walked]
  | String c rest' =>
      (if Ascii.eqb c "/" then [walked] else [])
        ++ pathPrefixes (walked +:+ String c "") rest'
  end.

(** [os.MkdirAll]: directories are created from the top down; it stops with
    an error (dropped by every caller) at a prefix that is a regular file. *)
Fixpoint mkdirs (ds : list string) (fs : FS) : FS :=
  match ds with
  | [] => fs
  | d :: ds' =>
      match files fs !! d with
      | Some _ => fs
      | None => mkdirs ds' (mkFS (files fs) ({[ d ]} ∪ dirs fs))
      end
  end.

Definition mkdirAll (path : string) (fs : FS) : FS :=
  mkdirs (pathPrefixes "" path) fs.

(** [os.WriteFile] with the error dropped, as every caller does. *)
Definition writeFile (name data : string) (fs : FS) : FS :=
  if decide (name ∈ dirs fs) then fs
  else mkFS (<[ name := data ]> (files fs)) (dirs fs).

Fixpoint trimPrefix (prefix s : string) : option string :=
  match prefix, s with
  | "", _ => Some s
  | String a prefix', String b s' =>
      if Ascii.eqb a b then trimPrefix prefix' s' else None
  | String _ _, "" => None
  end.

(** The entry name of [path] inside directory [dir], when it lies directly
    in it. *)
Definition entryName (dir path : string) : option string :=
  match trimPrefix (dir +:+ "/") path with
  | Some n =>
      if String.eqb n "" || strings.Contains n "/" then None else Some n
  | None => None
  end.

(** [os.ReadDir]: the entries of a directory, sorted by file name. *)
Definition readDir (fs : FS) (name : string) : option (list string) :=
  if decide (name ∈ dirs fs) then
    Some (merge_sort String.le
            (omap (entryName name) (elements (dom (files fs) ∪ dirs fs))))
  else None.

(** ** What lies outside the process: the environment variables and the
    answers of the HTTP endpoints *)

Module http.
Record Request := mkRequest {
  Method : string;
  URL : string;
  Header : list (string * string);
  Body : string }.
(** What [io.ReadAll(resp.Body)] returns. *)
Inductive ReadAll :=
| Bytes (body : string)
| ReadError (err : string).
(** What [http.DefaultClient.Do(req)] returns. *)
Inductive Result :=
| Error (err : string)
| Response (StatusCode : nat) (Status : string) (Body : ReadAll).
End http.

Record World := mkWorld {
  environ : gmap string string;
  roundTrip : http.Request → http.Result }.

(** ** Packages encoding/json and gjson

    The text layout of [json.MarshalIndent] and the parser behind
    [json.Unmarshal] are those of the Go library; they are taken as given.
    [Unmarshal_T data] is the value [json.Unmarshal(data, &v)] leaves in a
    zero-valued [v] of type [T] (the error is dropped by every caller). *)

Module json.
Record Package := mkPackage {
  MarshalIndent_AzureApi : AzureApi.t → string;
  MarshalIndent_AzureApiSchema : AzureApiSchema.t → string;
  MarshalIndent_GeneralApi : GeneralApi.t → string;
  Unmarshal_AzureApi : string → AzureApi.t;
  Unmarshal_AzureApis : string → AzureApis.t;
  Unmarshal_AzureApiSchema : string → AzureApiSchema.t;
  Unmarshal_AzureTokenResponse : string → AzureTokenResponse.t;
  Unmarshal_AzureService : string → AzureService.t;
  (** [gjson.Get(json, path).String()] *)
  gjson_Get_String : string → string → string }.
End json.

(** ** The state the program acts on, and its effects *)

Record State := mkState {
  fs : FS;
  requests : list http.Request;   (* every request handed to the HTTP client, oldest first *)
  stdout : list string }.         (* the lines printed, oldest first *)

(** A call either returns, or ends the process ([log.Fatal]). *)
Inductive Outcome (A : Type) :=
| Returned (a : A) (st : State)
| Exited (msg : string) (st : State).
Arguments Returned {A} a st.
Arguments Exited {A} msg st.

Definition M (A : Type) : Type := World → State → Outcome A.

Global Instance M_ret : MRet M := λ A a _ st, Returned a st.
Global Instance M_bind : MBind M := λ A B k m w st,
  match m w st with
  | Returned a st' => k a w st'
  | Exited msg st' => Exited msg st'
  end.

Definition fmt_Println (line : string) : M unit := λ _ st,
  Returned () (mkState (fs st) (requests st) (stdout st ++ [line])).

Definition log_Fatal {A} (msg : string) : M A := λ _ st, Exited msg st.

Definition os_Getenv (key : string) : M string := λ w st,
  Returned (default "" (environ w !! key)) st.

(** [os.Open]: [None] when the error is not nil. *)
Definition os_Open (name : string) : M (option File) := λ _ st,
  Returned (lookupPath (fs st) name) st.

Definition os_MkdirAll (path : string) : M unit := λ _ st,
  Returned () (mkState (mkdirAll path (fs st)) (requests st) (stdout st)).

Definition os_WriteFile (name data : string) : M unit := λ _ st,
  Returned () (mkState (writeFile name data (fs st)) (requests st) (stdout st)).

(** [os.ReadDir]: [None] when the error is not nil. *)
Definition os_ReadDir (name : string) : M (option (list string)) := λ _ st,
  Returned (readDir (fs st) name) st.

Definition http_Do (req : http.Request) : M http.Result := λ w st,
  Returned (roundTrip w req) (mkState (fs st) (requests st ++ [req]) (stdout st)).

(** [for _, x := range xs { ... }] with the variables the body updates. *)
Fixpoint forRange {A S : Type} (body : S → A → M S) (xs : list A) (acc : S) : M S :=
  match xs with
  | [] => mret acc
  | x :: xs' => acc' ← body acc x; forRange body xs' acc'
  end.

(** Functions of the repository defined in other files. *)
Record External := mkExternal {
  writeGeneralApi : string → GeneralApi.t → M unit;
  awsExport : AwsFlags.t → M unit;
  awsOfframp : AwsFlags.t → M unit;
  apiHubOnramp : ApigeeFlags.t → M unit;
  apiHubImport : ApigeeFlags.t → M unit }.

Section Pipeline.

Context (J : json.Package) (X : External).

(** ** azure.go: calls to the management API *)

Definition getAzureToken (clientId clientSecret tenantId : string) : M string :=
  let result := "" in
  let body := "grant_type=client_credentials&client_id=" +:+ clientId
              +:+ "&client_secret=" +:+ clientSecret
              +:+ "&resource=https%3A%2F%2Fmanagement.azure.com%2F" in
  response ← http_Do (http.mkRequest "POST"
     ("https://login.microsoftonline.com/" +:+ tenantId +:+ "/oauth2/token") [] body);
  match response with
  | http.Error err => log_Fatal ("An Error Occured " +:+ err)
  | http.Response _ _ (http.ReadError err) => log_Fatal err
  | http.Response _ _ (http.Bytes responseBody) =>
      let azureToken := json.Unmarshal_AzureTokenResponse J responseBody in
      let result :=
        if negb (String.eqb (AzureTokenResponse.AccessToken azureToken) "")
        then AzureTokenResponse.AccessToken azureToken else result in
      mret result
  end.

Definition getAzureApis (subscriptionId resourceGroup serviceName token : string)
  : M AzureApis.t :=
  resp ← http_Do (http.mkRequest "GET"
     ("https://management.azure.com/subscriptions/" +:+ subscriptionId
      +:+ "/resourceGroups/" +:+ resourceGroup
      +:+ "/providers/Microsoft.ApiManagement/service/" +:+ serviceName
      +:+ "/apis?api-version=2022-08-01")
     [("Authorization", "Bearer " +:+ token)] "");
  match resp with
  | http.Error _ => mret AzureApis.zero
  | http.Response _ _ (http.Bytes body) => mret (json.Unmarshal_AzureApis J body)
  | http.Response _ _ (http.ReadError _) => mret AzureApis.zero
  end.

Definition getAzureApiSchema
    (subscriptionId resourceGroup serviceName apiName token : string)
  : M AzureApiSchema.t :=
  resp ← http_Do (http.mkRequest "GET"
     ("https://management.azure.com/subscriptions/" +:+ subscriptionId
      +:+ "/resourceGroups/" +:+ resourceGroup
      +:+ "/providers/Microsoft.ApiManagement/service/" +:+ serviceName
      +:+ "/schemas/" +:+ apiName +:+ "?api-version=2022-08-01")
     [("Authorization", "Bearer " +:+ token)] "");
  match resp with
  | http.Error _ => mret AzureApiSchema.zero
  | http.Response StatusCode _ Body =>
      if Nat.eqb StatusCode 200 then
        match Body with
        | http.Bytes body =>
            let document := json.gjson_Get_String J body "properties.document" in
            mret (AzureApiSchema.setDocument document
                    (json.Unmarshal_AzureApiSchema J body))
        | http.ReadError _ => mret AzureApiSchema.zero
        end
      else mret AzureApiSchema.zero
  end.

(** ** azureExport *)

(** The staged file of an API: [baseDir + "/" + newName + "/" + name + ".json"]. *)
Definition apiFilePath (baseDir newName name : string) : string :=
  baseDir +:+ "/" +:+ newName +:+ "/" +:+ name +:+ ".json".

(** The body of the loop over [apis.Value]; [apiNames] is the slice built
    up by [append]. *)
Definition exportApi (flags : AzureFlags.t) (baseDir token : string)
    (apiNames : list string) (api : AzureApi.t) : M (list string) :=
  if (String.eqb (AzureFlags.ApiName flags) ""
      || String.eqb (AzureFlags.ApiName flags) (AzureApi.Name api))
     && negb (strings.Contains (AzureApi.Name api) ";rev=")
  then
    fmt_Println ("Exporting " +:+ AzureApi.Name api +:+ "...");;
    let newName := re_ReplaceAllString (AzureApi.Name api) in
    let '(newApiName, api) := qualify api in
    fileExists ← os_Open (apiFilePath baseDir newName (AzureApi.Name api));
    if (AzureFlags.OnlyNew flags && negb (bool_decide (is_Some fileExists)))
       || negb (AzureFlags.OnlyNew flags)
    then
      let bytes := json.MarshalIndent_AzureApi J api in
      os_MkdirAll (baseDir +:+ "/" +:+ newName);;
      os_WriteFile (apiFilePath baseDir newName newApiName) bytes;;
      schema ← getAzureApiSchema (AzureFlags.Subscription flags)
                 (AzureFlags.ResourceGroup flags) (AzureFlags.ServiceName flags)
                 newApiName token;
      (if negb (String.eqb (AzureApiSchema.Id schema) "") then
         let bytes := json.MarshalIndent_AzureApiSchema J schema in
         os_WriteFile (baseDir +:+ "/" +:+ newName +:+ "/" +:+ newApiName
                       +:+ "-oas-definition.json") bytes;;
         let doc_bytes := AzureApiSchema.Document schema in
         os_WriteFile (baseDir +:+ "/" +:+ newName +:+ "/" +:+ newApiName
                       +:+ "-oas." +:+ AzureApiSchema.SchemaType schema) doc_bytes
       else mret ());;
      mret (apiNames ++ [AzureApi.Name api])
    else mret apiNames
  else mret apiNames.

(** From [fmt.Println("Exporting Azure APIs for service ...")] to the final
    [return apiNames, nil], with the token in hand. *)
Definition exportApis (flags : AzureFlags.t) (baseDir token : string)
  : M (list string) :=
  fmt_Println ("Exporting Azure APIs for service "
               +:+ AzureFlags.ServiceName flags +:+ "...");;
  apis ← getAzureApis (AzureFlags.Subscription flags)
           (AzureFlags.ResourceGroup flags) (AzureFlags.ServiceName flags) token;
  let apiNames := [] in
  if (0 <? length (AzureApis.Value apis))%nat
  then forRange (exportApi flags baseDir token) (AzureApis.Value apis) apiNames
  else mret apiNames.

(** The returned error is always nil; the result is the slice of names. *)
Definition azureExport (flags : AzureFlags.t) : M (list string) :=
  let baseDir := "src/main/azure/apiproxies" in
  let token := AzureFlags.Token flags in
  if String.eqb (AzureFlags.Subscription flags) "" then
    fmt_Println "No subscription given, cannot export Azure APIs.";;
    mret []
  else if String.eqb (AzureFlags.ResourceGroup flags) "" then
    fmt_Println "No resource group given, cannot export Azure APIs.";;
    mret []
  else if String.eqb (AzureFlags.ServiceName flags) "" then
    fmt_Println "No service name given, cannot export Azure APIs.";;
    mret []
  else if String.eqb token "" then
    (* fetch an Azure token using a client id and secret *)
    env_token ← os_Getenv "AZURE_TOKEN";
    if negb (String.eqb env_token "") then
      exportApis flags baseDir env_token
    else
      client_id ← os_Getenv "AZURE_CLIENT_ID";
      client_secret ← os_Getenv "AZURE_CLIENT_SECRET";
      tenant_id ← os_Getenv "AZURE_TENANT_ID";
      if String.eqb client_id "" || String.eqb client_secret ""
         || String.eqb tenant_id ""
      then
        fmt_Println "No token sent and no client environment variables set, cannot export Azure APIs.";;
        mret []
      else
        token ← getAzureToken client_id client_secret tenant_id;
        if String.eqb token "" then
          fmt_Println "Could not get valid Azure token, cannot export Azure APIs.";;
          mret []
        else exportApis flags baseDir token
  else exportApis flags baseDir token.

(** ** azureOfframp *)

(** The [GeneralApi] built from a staged API: the twelve assignments. *)
Definition toGeneralApi (flags : AzureFlags.t) (azureService : AzureService.t)
    (azureApi : AzureApi.t) : GeneralApi.t :=
  let service := AzureService.Properties azureService in
  {| GeneralApi.Name := AzureApi.Name azureApi +:+ "-azure";
     GeneralApi.DisplayName := AzureApi.DisplayName azureApi;
     GeneralApi.Description :=
       AzureApiProperties.Description (AzureApi.Properties azureApi);
     GeneralApi.Version := AzureApi.ApiVersion azureApi;
     GeneralApi.OwnerEmail := AzureServiceProperties.PublisherEmail service;
     GeneralApi.OwnerName := AzureServiceProperties.PublisherName service;
     GeneralApi.DocumentationUrl :=
       AzureServiceProperties.DeveloperPortalUrl service
       +:+ "/api-details#api=" +:+ AzureApi.Name azureApi;
     GeneralApi.GatewayUrl :=
       AzureServiceProperties.GatewayUrl service +:+ "/" +:+ AzureApi.Path azureApi;
     GeneralApi.BasePath := AzureApi.Path azureApi;
     GeneralApi.PlatformId := "azure-api-management";
     GeneralApi.PlatformName := "Azure API Management";
     GeneralApi.PlatformResourceUri :=
       "https://portal.azure.com/#resource/subscriptions/"
       +:+ AzureFlags.Subscription flags +:+ "/resourceGroups/"
       +:+ AzureFlags.ResourceGroup flags
       +:+ "/providers/Microsoft.ApiManagement/service/"
       +:+ AzureFlags.ServiceName flags +:+ "/overview?apiName="
       +:+ AzureApi.Name azureApi |}.

(** "load azureService info, if available" *)
Definition loadAzureService (flags : AzureFlags.t) (azureBaseDir : string)
  : M AzureService.t :=
  azureServiceFile ← os_Open (azureBaseDir +:+ "/../"
                              +:+ AzureFlags.ServiceName flags +:+ ".json");
  match azureServiceFile with
  | Some file => mret (json.Unmarshal_AzureService J (io_ReadAll file))
  | None => mret AzureService.zero
  end.

(** The body of the inner loop over the files [f] of group directory [e]. *)
Definition offrampFile (flags : AzureFlags.t) (azureBaseDir baseDir : string)
    (azureService : AzureService.t) (e : string) (_ : unit) (f : string) : M unit :=
  if negb (strings.HasSuffix f "-oas.json")
     && negb (strings.HasSuffix f "-oas-definition.json")
  then
    (* this is an API file *)
    apiFile ← os_Open (azureBaseDir +:+ "/" +:+ e +:+ "/" +:+ f);
    match apiFile with
    | None =>
        log_Fatal ("open " +:+ azureBaseDir +:+ "/" +:+ e +:+ "/" +:+ f
                   +:+ ": no such file or directory")
    | Some file =>
        let azureApi := json.Unmarshal_AzureApi J (io_ReadAll file) in
        if negb (String.eqb (AzureApi.Name azureApi) "") then
          let generalApi := toGeneralApi flags azureService azureApi in
          let bytes := json.MarshalIndent_GeneralApi J generalApi in
          os_MkdirAll (baseDir +:+ "/" +:+ e);;
          writeGeneralApi X e generalApi;;
          os_WriteFile (baseDir +:+ "/" +:+ e +:+ "/"
                        +:+ GeneralApi.Name generalApi +:+ ".json") bytes;;
          schemaFile ← os_Open (azureBaseDir +:+ "/" +:+ e +:+ "/"
                                +:+ AzureApi.Name azureApi +:+ "-oas.json");
          match schemaFile with
          | Some file =>
              (* we have an api spec, copy it over *)
              os_WriteFile (baseDir +:+ "/" +:+ e +:+ "/"
                            +:+ GeneralApi.Name generalApi +:+ "-oas.json")
                           (io_ReadAll file)
          | None => mret ()
          end
        else mret ()
    end
  else mret ().

(** The body of the outer loop over the group directories [e]. *)
Definition offrampEntry (flags : AzureFlags.t) (azureBaseDir baseDir : string)
    (azureService : AzureService.t) (_ : unit) (e : string) : M unit :=
  if String.eqb (AzureFlags.ApiName flags) ""
     || String.eqb (AzureFlags.ApiName flags) e
  then
    fmt_Println e;;
    (* read all files *)
    fileEntries ← os_ReadDir (azureBaseDir +:+ "/" +:+ e);
    forRange (offrampFile flags azureBaseDir baseDir azureService e)
             (default [] fileEntries) ()
  else mret ().

(** The returned error is always nil. *)
Definition azureOfframp (flags : AzureFlags.t) : M unit :=
  let azureBaseDir := "src/main/azure/apiproxies" in
  let baseDir := "src/main/general/apiproxies" in
  if String.eqb (AzureFlags.Subscription flags) "" then
    fmt_Println "No subscription given, cannot offramp Azure APIs."
  else if String.eqb (AzureFlags.ResourceGroup flags) "" then
    fmt_Println "No resource group given, cannot offramp Azure APIs."
  else if String.eqb (AzureFlags.ServiceName flags) "" then
    fmt_Println "No service name given, cannot offramp Azure APIs."
  else
    entries ← os_ReadDir azureBaseDir;
    match entries with
    | None =>
        log_Fatal ("open " +:+ azureBaseDir +:+ ": no such file or directory")
    | Some entries =>
        fmt_Println "Offramping Azure API Management APIs to general...";;
        azureService ← loadAzureService flags azureBaseDir;
        forRange (offrampEntry flags azureBaseDir baseDir azureService) entries ()
    end.

(** ** webserver.go: apimSync *)

Definition apimSync (input : ApimSyncInput.t) : M ApimSyncOutput.t :=
  APIGEE_PROJECT ← os_Getenv "APIGEE_PROJECT";
  APIGEE_REGION ← os_Getenv "APIGEE_REGION";
  let apigeeFlags := ApigeeFlags.mk APIGEE_PROJECT APIGEE_REGION in
  AZURE_SUBSCRIPTION_ID ← os_Getenv "AZURE_SUBSCRIPTION_ID";
  AZURE_RESOURCE_GROUP ← os_Getenv "AZURE_RESOURCE_GROUP";
  AZURE_SERVICE_NAME ← os_Getenv "AZURE_SERVICE_NAME";
  let azureFlags :=
    AzureFlags.mk AZURE_SUBSCRIPTION_ID AZURE_RESOURCE_GROUP AZURE_SERVICE_NAME
                  "" "" false in
  AWS_REGION ← os_Getenv "AWS_REGION";
  AWS_ACCESS_KEY_ID ← os_Getenv "AWS_ACCESS_KEY_ID";
  AWS_SECRET_ACCESS_KEY ← os_Getenv "AWS_SECRET_ACCESS_KEY";
  let awsFlags := AwsFlags.mk AWS_REGION AWS_ACCESS_KEY_ID AWS_SECRET_ACCESS_KEY in
  (if String.eqb (ApimSyncInput.Offramp input) "azure" then
     azureExport azureFlags;;
     azureOfframp azureFlags
   else if String.eqb (ApimSyncInput.Offramp input) "aws" then
     awsExport X awsFlags;;
     awsOfframp X awsFlags
   else mret ());;
  (if String.eqb (ApimSyncInput.Onramp input) "apihub" then
     apiHubOnramp X apigeeFlags;;
     apiHubImport X apigeeFlags
   else mret ());;
  mret (ApimSyncOutput.mk true
          ("Sync from " +:+ ApimSyncInput.Offramp input +:+ " to "
           +:+ ApimSyncInput.Onramp input +:+ " successful!")).

(** ** Notions the properties are stated with *)

(** The condition under which the loop of [azureExport] handles an entry:
    the name filter and the revision filter. *)
Definition selected (flags : AzureFlags.t) (api : AzureApi.t) : bool :=
  (String.eqb (AzureFlags.ApiName flags) ""
   || String.eqb (AzureFlags.ApiName flags) (AzureApi.Name api))
  && negb (strings.Contains (AzureApi.Name api) ";rev=").

(** The path [azureExport] tests with [os.Open] and writes the API to. *)
Definition stagedPath (baseDir : string) (api : AzureApi.t) : string :=
  apiFilePath baseDir (re_ReplaceAllString (AzureApi.Name api))
              (AzureApi.Name (qualify api).2).

(** The [GeneralApi] that [offrampFile] builds and writes for the file [f]
    of group directory [e], if it builds one. *)
Definition producedGeneralApi (flags : AzureFlags.t) (azureBaseDir : string)
    (azureService : AzureService.t) (e f : string) (st : State)
  : option GeneralApi.t :=
  if negb (strings.HasSuffix f "-oas.json")
     && negb (strings.HasSuffix f "-oas-definition.json")
  then
    match lookupPath (fs st) (azureBaseDir +:+ "/" +:+ e +:+ "/" +:+ f) with
    | Some file =>
        let azureApi := json.Unmarshal_AzureApi J (io_ReadAll file) in
        if negb (String.eqb (AzureApi.Name azureApi) "")
        then Some (toGeneralApi flags azureService azureApi)
        else None
    | None => None
    end
  else None.

End Pipeline.

(** An entry whose names already carry the tag is left as it is, and this is
    the shape of every qualified entry. *)
Definition qualified (api : AzureApi.t) : Prop :=
  AzureApi.ApiVersion api = ""
  ∨ (strings.HasSuffix (AzureApi.Name api) (AzureApi.ApiVersion api) = true
     ∧ strings.HasSuffix (AzureApi.DisplayName api) (AzureApi.ApiVersion api)
       = true).

Definition getenv (w : World) (key : string) : string :=
  default "" (environ w !! key).

(** The listing with the revision entries taken out of it. *)
Definition withoutRevisions (apis : list AzureApi.t) : list AzureApi.t :=
  filter (λ api, strings.Contains (AzureApi.Name api) ";rev=" = false) apis.

(** The same decoder, on a service whose listing has no revision entries. *)
Definition dropRevisions (J : json.Package) : json.Package := {|
  json.MarshalIndent_AzureApi := json.MarshalIndent_AzureApi J;
  json.MarshalIndent_AzureApiSchema := json.MarshalIndent_AzureApiSchema J;
  json.MarshalIndent_GeneralApi := json.MarshalIndent_GeneralApi J;
  json.Unmarshal_AzureApi := json.Unmarshal_AzureApi J;
  json.Unmarshal_AzureApis body :=
    AzureApis.mk (withoutRevisions (AzureApis.Value (json.Unmarshal_AzureApis J body)));
  json.Unmarshal_AzureApiSchema := json.Unmarshal_AzureApiSchema J;
  json.Unmarshal_AzureTokenResponse := json.Unmarshal_AzureTokenResponse J;
  json.Unmarshal_AzureService := json.Unmarshal_AzureService J;
  json.gjson_Get_String := json.gjson_Get_String J |}.

(** The state after one more printed line, and after one more request. *)
Definition printed (line : string) (st : State) : State :=
  mkState (fs st) (requests st) (stdout st ++ [line]).

Definition sent (req : http.Request) (st : State) : State :=
  mkState (fs st) (requests st ++ [req]) (stdout st).

(** The two staging directories, as [azureExport] and [azureOfframp] spell
    them. *)
Definition azureBaseDir : string := "src/main/azure/apiproxies".
Definition generalBaseDir : string := "src/main/general/apiproxies".

(** The request [getAzureToken] sends. *)
Definition tokenRequest (clientId clientSecret tenantId : string) : http.Request :=
  http.mkRequest "POST"
    ("https://login.microsoftonline.com/" +:+ tenantId +:+ "/oauth2/token") []
    ("grant_type=client_credentials&client_id=" +:+ clientId
     +:+ "&client_secret=" +:+ clientSecret
     +:+ "&resource=https%3A%2F%2Fmanagement.azure.com%2F").

(** A required identifier is empty. *)
Definition identifierMissing (flags : AzureFlags.t) : Prop :=
  AzureFlags.Subscription flags = "" ∨ AzureFlags.ResourceGroup flags = ""
  ∨ AzureFlags.ServiceName flags = "".

(** No token comes with the flags or from [AZURE_TOKEN]. *)
Definition tokenMissing (flags : AzureFlags.t) (w : World) : Prop :=
  AzureFlags.Token flags = "" ∧ getenv w "AZURE_TOKEN" = "".

(** A client id, a client secret or a tenant id is not set. *)
Definition clientMissing (w : World) : Prop :=
  getenv w "AZURE_CLIENT_ID" = "" ∨ getenv w "AZURE_CLIENT_SECRET" = ""
  ∨ getenv w "AZURE_TENANT_ID" = "".

(** The same entry at a later time: its raw name and its qualified name are
    unchanged, whatever else changed in it. *)
Definition sameNames (a a' : AzureApi.t) : Prop :=
  AzureApi.Name a = AzureApi.Name a' ∧ (qualify a).1 = (qualify a').1.

(** ** A stand-in for the libraries and the other files, to run the model

    A value is written as one line of comma-separated fields and a listing
    as such lines separated by [|]; the functions of the other files do
    nothing. *)

Module Sample.

Fixpoint split (sep : ascii) (cur s : string) : list string :=
  match s with
  | "" => [cur]
  | String c rest =>
      if Ascii.eqb c sep then cur :: split sep "" rest
      else split sep (cur +:+ String c "") rest
  end.

Definition field (i : nat) (fields : list string) : string :=
  default "" (fields !! i).

Fixpoint join (fields : list string) : string :=
  match fields with
  | [] => ""
  | [x] => x
  | x :: rest => x +:+ "," +:+ join rest
  end.

Definition api (Name DisplayName Description Path ApiVersion : string)
  : AzureApi.t :=
  AzureApi.mk "" "" Name
    (AzureApiProperties.mk DisplayName "" Description "" "" "" Path []
       AzureApiAuthenticationSettings.zero
       AzureApiSubscriptionKeyParameterNames.zero false "" ApiVersion).

Definition readApi (data : string) : AzureApi.t :=
  let fields := split "," "" data in
  api (field 0 fields) (field 1 fields) (field 2 fields) (field 3 fields)
      (field 4 fields).

Definition J : json.Package := {|
  json.MarshalIndent_AzureApi a :=
    join [AzureApi.Name a; AzureApi.DisplayName a;
          AzureApiProperties.Description (AzureApi.Properties a);
          AzureApi.Path a; AzureApi.ApiVersion a];
  json.MarshalIndent_AzureApiSchema s :=
    join [AzureApiSchema.Id s; AzureApiSchema.SchemaType s;
          AzureApiSchema.Document s];
  json.MarshalIndent_GeneralApi g :=
    join [GeneralApi.Name g; GeneralApi.DisplayName g;
          GeneralApi.Description g; GeneralApi.Version g;
          GeneralApi.OwnerEmail g; GeneralApi.OwnerName g;
          GeneralApi.DocumentationUrl g; GeneralApi.GatewayUrl g;
          GeneralApi.BasePath g; GeneralApi.PlatformId g;
          GeneralApi.PlatformName g; GeneralApi.PlatformResourceUri g];
  json.Unmarshal_AzureApi := readApi;
  json.Unmarshal_AzureApis body :=
    AzureApis.mk
      (if String.eqb body "" then [] else readApi <$> split "|" "" body);
  json.Unmarshal_AzureApiSchema body :=
    let fields := split "," "" body in
    AzureApiSchema.mk (field 0 fields) "" ""
      (AzureApiSchemaProperties.mk "" (field 1 fields) "");
  json.Unmarshal_AzureTokenResponse body :=
    AzureTokenResponse.mk body "" "" "" "" "" "";
  json.Unmarshal_AzureService body :=
    let fields := split "," "" body in
    AzureService.mk "" "" ""
      (AzureServiceProperties.mk (field 2 fields) (field 3 fields) "" ""
         (field 0 fields) (field 1 fields));
  json.gjson_Get_String body _ := field 2 (split "," "" body) |}.

Definition X : External := {|
  writeGeneralApi _ _ := mret ();
  awsExport _ := mret ();
  awsOfframp _ := mret ();
  apiHubOnramp _ := mret ();
  apiHubImport _ := mret () |}.

Definition emptyFS : FS := mkFS ∅ ∅.
Definition start : State := mkState emptyFS [] [].

(** An Azure service with three entries, one of them a revision, and no
    schema documents. *)
Definition listing : string :=
  "orders-v2,Orders,,orders,v2|billing,Billing,,b,v1|billing;rev=2,Billing,,b,v1".

Definition azure : World := {|
  environ := {[ "AZURE_TOKEN" := "token" ]};
  roundTrip req :=
    if strings.Contains (http.URL req) "/apis?"
    then http.Response 200 "200 OK" (http.Bytes listing)
    else http.Response 404 "404 Not Found" (http.Bytes "") |}.

Definition flags (OnlyNew : bool) : AzureFlags.t :=
  AzureFlags.mk "subscription" "group" "service" "" "" OnlyNew.

(** The state the first export leaves behind. *)
Definition exported : State :=
  match azureExport J (flags true) azure start with
  | Returned _ st => st
  | Exited _ st => st
  end.

(** Client credentials are set, and the token endpoint cannot be reached. *)
Definition unreachable : World := {|
  environ := {[ "AZURE_CLIENT_ID" := "client"; "AZURE_CLIENT_SECRET" := "secret";
                "AZURE_TENANT_ID" := "tenant" ]};
  roundTrip _ := http.Error "dial tcp: i/o timeout" |}.

(** Client credentials are set, and the token endpoint answers without an
    access token. *)
Definition denied : World := {|
  environ := {[ "AZURE_CLIENT_ID" := "client"; "AZURE_CLIENT_SECRET" := "secret";
                "AZURE_TENANT_ID" := "tenant" ]};
  roundTrip _ := http.Response 401 "401 Unauthorized" (http.Bytes "") |}.

(** The service is configured for the web server, without any credentials. *)
Definition configured : World := {|
  environ := {[ "AZURE_SUBSCRIPTION_ID" := "subscription";
                "AZURE_RESOURCE_GROUP" := "group";
                "AZURE_SERVICE_NAME" := "service" ]};
  roundTrip _ := http.Error "dial tcp: i/o timeout" |}.

(** A staged API with base path [path], without and with the metadata of
    the service next to the export directory. *)
Definition staged (path : string) : State :=
  mkState
    (writeFile "src/main/azure/apiproxies/orders/orders-v2.json"
       ("orders-v2,Orders v2,," +:+ path +:+ ",v2")
       (mkdirAll "src/main/azure/apiproxies/orders" emptyFS))
    [] [].

Definition serviceJson : string :=
  "owner@example.net,Owner,https://portal.example.net,https://gw.example.net".

Definition service : AzureService.t := json.Unmarshal_AzureService J serviceJson.

Definition stagedWithService (path : string) : State :=
  mkState
    (writeFile "src/main/azure/apiproxies/../service.json" serviceJson
       (fs (staged path)))
    [] [].

End Sample.

(** * The rest of azure.go and of webserver.go *)

Module PlatformStatus.
(** Modelled from the spec: the [PlatformStatus] struct is declared in
    another file of the repository; these are the two fields [azureStatus]
    assigns (whether the platform is connected, and a message). *)
Record t := mk { Connected : bool; Message : string }.
Definition zero : t := mk false "".
End PlatformStatus.

Module ApimStatus.
Record t := mk {
  ApigeeStatus : PlatformStatus.t;
  ApiHubStatus : PlatformStatus.t;
  AzureStatus : PlatformStatus.t;
  AwsStatus : PlatformStatus.t }.
End ApimStatus.

(** [strconv.Itoa], on the lengths it is applied to. *)
Definition strconv_Itoa (n : nat) : string :=
  NilEmpty.string_of_uint (Nat.to_uint n).

(** [path] itself or something below it. *)
Definition below (path name : string) : bool :=
  String.eqb name path || strings.HasPrefix name (path +:+ "/").

(** [os.RemoveAll]: the path and everything below it goes; a path that does
    not exist is no error. *)
Definition removeAll (path : string) (fs : FS) : FS :=
  mkFS (filter (λ entry, below path entry.1 = false) (files fs))
       (filter (λ name, below path name = false) (dirs fs)).

Definition os_RemoveAll (path : string) : M unit := λ _ st,
  Returned () (mkState (removeAll path (fs st)) (requests st) (stdout st)).

(** What [azureServiceExport] does with the body it got: [json.Unmarshal]
    into a [map[string]any], then [json.MarshalIndent] of that map. *)
Module jsonMap.
Record Package := mkPackage { Reindent : string → string }.
End jsonMap.

(** The status functions of the other platforms, defined in other files. *)
Record ExternalStatus := mkExternalStatus {
  apigeeStatus : ApigeeFlags.t → M PlatformStatus.t;
  apiHubStatus : ApigeeFlags.t → M PlatformStatus.t;
  awsStatus : AwsFlags.t → M PlatformStatus.t }.

(** The request for the listing, which [getAzureApis] and [azureStatus]
    both build, the request for a schema and the request for the service. *)
Definition apisRequest (subscriptionId resourceGroup serviceName token : string)
  : http.Request :=
  http.mkRequest "GET"
    ("https://management.azure.com/subscriptions/" +:+ subscriptionId
     +:+ "/resourceGroups/" +:+ resourceGroup
     +:+ "/providers/Microsoft.ApiManagement/service/" +:+ serviceName
     +:+ "/apis?api-version=2022-08-01")
    [("Authorization", "Bearer " +:+ token)] "".

Definition schemaRequest
    (subscriptionId resourceGroup serviceName token apiName : string)
  : http.Request :=
  http.mkRequest "GET"
    ("https://management.azure.com/subscriptions/" +:+ subscriptionId
     +:+ "/resourceGroups/" +:+ resourceGroup
     +:+ "/providers/Microsoft.ApiManagement/service/" +:+ serviceName
     +:+ "/schemas/" +:+ apiName +:+ "?api-version=2022-08-01")
    [("Authorization", "Bearer " +:+ token)] "".

Definition serviceRequest (subscriptionId resourceGroup serviceName token : string)
  : http.Request :=
  http.mkRequest "GET"
    ("https://management.azure.com/subscriptions/" +:+ subscriptionId
     +:+ "/resourceGroups/" +:+ resourceGroup
     +:+ "/providers/Microsoft.ApiManagement/service/" +:+ serviceName
     +:+ "?api-version=2022-08-01")
    [("Authorization", "Bearer " +:+ token)] "".

Section Rest.

Context (J : json.Package) (JM : jsonMap.Package) (XS : ExternalStatus).

(** ** azureStatus *)

(** From the request for the listing to the final [return status], with the
    token in hand. *)
Definition statusOfApis (flags : AzureFlags.t) (token : string)
  : M PlatformStatus.t :=
  resp ← http_Do (http.mkRequest "GET"
     ("https://management.azure.com/subscriptions/"
      +:+ AzureFlags.Subscription flags
      +:+ "/resourceGroups/" +:+ AzureFlags.ResourceGroup flags
      +:+ "/providers/Microsoft.ApiManagement/service/"
      +:+ AzureFlags.ServiceName flags
      +:+ "/apis?api-version=2022-08-01")
     [("Authorization", "Bearer " +:+ token)] "");
  match resp with
  | http.Response StatusCode Status Body =>
      let apis :=
        match Body with
        | http.Bytes body => json.Unmarshal_AzureApis J body
        | http.ReadError _ => AzureApis.zero
        end in
      if Nat.eqb StatusCode 200 then
        mret (PlatformStatus.mk true
                ("Connected to Azure, "
                 +:+ strconv_Itoa (length (AzureApis.Value apis))
                 +:+ " APIs found in service "
                 +:+ AzureFlags.ServiceName flags +:+ "."))
      else mret (PlatformStatus.mk false Status)
  | http.Error err => mret (PlatformStatus.mk false err)
  end.

Definition azureStatus (flags : AzureFlags.t) : M PlatformStatus.t :=
  let token := AzureFlags.Token flags in
  if String.eqb (AzureFlags.Subscription flags) "" then
    mret (PlatformStatus.mk false
            "No subscription given, cannot connect to Azure API Management.")
  else if String.eqb (AzureFlags.ResourceGroup flags) "" then
    mret (PlatformStatus.mk false
            "No resource group given, cannot connect to Azure API Management.")
  else if String.eqb (AzureFlags.ServiceName flags) "" then
    mret (PlatformStatus.mk false
            "No service name given, cannot connect to Azure API Management.")
  else if String.eqb token "" then
    (* fetch an Azure token using a client id and secret *)
    env_token ← os_Getenv "AZURE_TOKEN";
    if negb (String.eqb env_token "") then
      statusOfApis flags env_token
    else
      client_id ← os_Getenv "AZURE_CLIENT_ID";
      client_secret ← os_Getenv "AZURE_CLIENT_SECRET";
      tenant_id ← os_Getenv "AZURE_TENANT_ID";
      if String.eqb client_id "" || String.eqb client_secret ""
         || String.eqb tenant_id ""
      then
        mret (PlatformStatus.mk false
                "No client id, secret or tenant id give, cannot get Azure token.")
      else
        token ← getAzureToken J client_id client_secret tenant_id;
        if String.eqb token "" then
          mret (PlatformStatus.mk false "Could not get Azure token.")
        else statusOfApis flags token
  else statusOfApis flags token.

(** ** azureCleanLocal: the returned error is always nil. *)
Definition azureCleanLocal (flags : AzureFlags.t) : M unit :=
  let baseDir := "src/main/azure" in
  os_RemoveAll baseDir.

(** ** azureServiceExport *)

Definition getAzureService (subscriptionId resourceGroup serviceName token : string)
  : M string :=
  resp ← http_Do (http.mkRequest "GET"
     ("https://management.azure.com/subscriptions/" +:+ subscriptionId
      +:+ "/resourceGroups/" +:+ resourceGroup
      +:+ "/providers/Microsoft.ApiManagement/service/" +:+ serviceName
      +:+ "?api-version=2022-08-01")
     [("Authorization", "Bearer " +:+ token)] "");
  match resp with
  | http.Error _ => mret ""
  | http.Response _ _ (http.Bytes body) => mret body
  | http.Response _ _ (http.ReadError _) => mret ""
  end.

(** From [fmt.Println("Exporting Azure service ...")] to the final
    [return nil], with the token in hand. *)
Definition exportService (flags : AzureFlags.t) (baseDir token : string) : M unit :=
  fmt_Println ("Exporting Azure service "
               +:+ AzureFlags.ServiceName flags +:+ "...");;
  service ← getAzureService (AzureFlags.Subscription flags)
              (AzureFlags.ResourceGroup flags) (AzureFlags.ServiceName flags) token;
  if negb (String.eqb service "") then
    os_MkdirAll baseDir;;
    let bytes2 := jsonMap.Reindent JM service in
    os_WriteFile (baseDir +:+ "/" +:+ AzureFlags.ServiceName flags +:+ ".json")
                 bytes2
  else mret ().

(** The returned error is always nil. *)
Definition azureServiceExport (flags : AzureFlags.t) : M unit :=
  let baseDir := "src/main/azure" in
  let token := AzureFlags.Token flags in
  if String.eqb (AzureFlags.Subscription flags) "" then
    fmt_Println "No subscription given, cannot export Azure APIs."
  else if String.eqb (AzureFlags.ResourceGroup flags) "" then
    fmt_Println "No resource group given, cannot export Azure APIs."
  else if String.eqb (AzureFlags.ServiceName flags) "" then
    fmt_Println "No service name given, cannot export Azure APIs."
  else if String.eqb token "" then
    (* fetch an Azure token using a client id and secret *)
    env_token ← os_Getenv "AZURE_TOKEN";
    if negb (String.eqb env_token "") then
      exportService flags baseDir env_token
    else
      client_id ← os_Getenv "AZURE_CLIENT_ID";
      client_secret ← os_Getenv "AZURE_CLIENT_SECRET";
      tenant_id ← os_Getenv "AZURE_TENANT_ID";
      if String.eqb client_id "" || String.eqb client_secret ""
         || String.eqb tenant_id ""
      then
        fmt_Println "No token sent and no client environment variables set, cannot export Azure APIs."
      else
        token ← getAzureToken J client_id client_secret tenant_id;
        if String.eqb token "" then
          fmt_Println "Could not get valid Azure token, cannot export Azure APIs."
        else exportService flags baseDir token
  else exportService flags baseDir token.

(** ** azureExportMin: the names are dropped, the returned error is nil. *)
Definition azureExportMin (flags : AzureFlags.t) : M unit :=
  azureExport J flags;;
  mret ().

(** ** webserver.go: apimStatus *)

Definition apimStatus : M ApimStatus.t :=
  APIGEE_PROJECT ← os_Getenv "APIGEE_PROJECT";
  APIGEE_REGION ← os_Getenv "APIGEE_REGION";
  let apigeeFlags := ApigeeFlags.mk APIGEE_PROJECT APIGEE_REGION in
  AZURE_SUBSCRIPTION_ID ← os_Getenv "AZURE_SUBSCRIPTION_ID";
  AZURE_RESOURCE_GROUP ← os_Getenv "AZURE_RESOURCE_GROUP";
  AZURE_SERVICE_NAME ← os_Getenv "AZURE_SERVICE_NAME";
  let azureFlags :=
    AzureFlags.mk AZURE_SUBSCRIPTION_ID AZURE_RESOURCE_GROUP AZURE_SERVICE_NAME
                  "" "" false in
  AWS_REGION ← os_Getenv "AWS_REGION";
  AWS_ACCESS_KEY_ID ← os_Getenv "AWS_ACCESS_KEY_ID";
  AWS_SECRET_ACCESS_KEY ← os_Getenv "AWS_SECRET_ACCESS_KEY";
  let awsFlags := AwsFlags.mk AWS_REGION AWS_ACCESS_KEY_ID AWS_SECRET_ACCESS_KEY in
  ApigeeStatus ← apigeeStatus XS apigeeFlags;
  ApiHubStatus ← apiHubStatus XS apigeeFlags;
  AzureStatus ← azureStatus azureFlags;
  AwsStatus ← awsStatus XS awsFlags;
  mret (ApimStatus.mk ApigeeStatus ApiHubStatus AzureStatus AwsStatus).

End Rest.

(** ** Further notions the properties are stated with *)

(** [writeGeneralApi] returns, and removes nothing from the staging area. *)
Definition keepsFiles (X : External) : Prop :=
  ∀ e g w st, ∃ st',
    writeGeneralApi X e g w st = Returned () st'
    ∧ ∀ p, is_Some (lookupPath (fs st) p) → is_Some (lookupPath (fs st') p).

(** The entries of a listing that the loop of [azureExport] handles. *)
Definition selectedApis (flags : AzureFlags.t) (apis : list AzureApi.t)
  : list AzureApi.t :=
  filter (λ api, selected flags api = true) apis.

(** The entries [getAzureApis] decodes from the answer to the listing
    request. *)
Definition listedApis (J : json.Package) (w : World) (flags : AzureFlags.t)
    (token : string) : list AzureApi.t :=
  match roundTrip w (apisRequest (AzureFlags.Subscription flags)
                       (AzureFlags.ResourceGroup flags)
                       (AzureFlags.ServiceName flags) token) with
  | http.Response _ _ (http.Bytes body) =>
      AzureApis.Value (json.Unmarshal_AzureApis J body)
  | _ => []
  end.

(** The state a call ends in, returning or not. *)
Definition stateOf {A : Type} (o : Outcome A) : State :=
  match o with Returned _ st => st | Exited _ st => st end.

(** The message of a connected service with [n] listed entries. *)
Definition connectedMessage (flags : AzureFlags.t) (n : nat) : string :=
  "Connected to Azure, " +:+ strconv_Itoa n +:+ " APIs found in service "
  +:+ AzureFlags.ServiceName flags +:+ ".".

(** More samples: a service that answers the listing with 403 and a body,
    and the body the service endpoint answers with. *)
Module More.

Definition forbidden : World := {|
  environ := {[ "AZURE_TOKEN" := "token" ]};
  roundTrip _ := http.Response 403 "403 Forbidden" (http.Bytes Sample.listing) |}.

Definition JM : jsonMap.Package := {| jsonMap.Reindent body := " " +:+ body |}.

Definition XS : ExternalStatus := {|
  apigeeStatus _ := mret PlatformStatus.zero;
  apiHubStatus _ := mret PlatformStatus.zero;
  awsStatus _ := mret PlatformStatus.zero |}.

Definition flagsFor (ApiName : string) : AzureFlags.t :=
  AzureFlags.mk "subscription" "group" "service" "token" ApiName false.

(** The web server is configured with the service and with client
    credentials, and the token endpoint cannot be reached. *)
Definition offline : World := {|
  environ := {[ "AZURE_SUBSCRIPTION_ID" := "subscription";
                "AZURE_RESOURCE_GROUP" := "group";
                "AZURE_SERVICE_NAME" := "service";
                "AZURE_CLIENT_ID" := "client"; "AZURE_CLIENT_SECRET" := "secret";
                "AZURE_TENANT_ID" := "tenant" ]};
  roundTrip _ := http.Error "dial tcp: i/o timeout" |}.

(** An entry without a version tag whose name ends in [-oas]. *)
Definition pets : AzureApi.t := Sample.api "pets-oas" "Pets" "" "pets" "".

(** The first entry of [Sample.listing]. *)
Definition orders : AzureApi.t := Sample.api "orders-v2" "Orders" "" "orders" "v2".

(** A schema with an id, of type [yaml], and a service that answers every
    request with it. *)
Definition schemaJson : string := "orders-v2,yaml,openapi: 3.0.0".

Definition documented : World := {|
  environ := {[ "AZURE_TOKEN" := "token" ]};
  roundTrip _ := http.Response 200 "200 OK" (http.Bytes schemaJson) |}.

End More.

(** * Properties *)

(** ** Byte strings *)

Lemma app_cons (c : ascii) (s t : string) :
  String c s +:+ t = String c (s +:+ t).
Proof. reflexivity. Qed.

Lemma app_nil_l (s : string) : "" +:+ s = s.
Proof. reflexivity. Qed.

Lemma app_assoc_s (a b c : string) : (a +:+ b) +:+ c = a +:+ (b +:+ c).
Proof. induction a as [|x a IH]; [done|]. rewrite !app_cons. by rewrite IH. Qed.

Lemma length_app_s (a b : string) :
  String.length (a +:+ b) = String.length a + String.length b.
Proof. induction a as [|x a IH]; [done|]. rewrite app_cons. simpl. by rewrite IH. Qed.

Lemma substring_all (s : string) : String.substring 0 (String.length s) s = s.
Proof. induction s as [|c s IH]; [done|]. simpl. by rewrite IH. Qed.

Lemma substring_app_r (a b : string) :
  String.substring (String.length a) (String.length b) (a +:+ b) = b.
Proof.
  induction a as [|c a IH]; [apply substring_all|].
  rewrite app_cons. simpl. exact IH.
Qed.

Lemma HasSuffix_app (a b : string) : strings.HasSuffix (a +:+ b) b = true.
Proof.
  unfold strings.HasSuffix. rewrite length_app_s.
  replace (String.length a + String.length b - String.length b)
    with (String.length a) by lia.
  rewrite substring_app_r, String.eqb_refl, andb_true_r.
  apply Nat.leb_le. lia.
Qed.

Lemma HasSuffix_sep (a sep b : string) :
  strings.HasSuffix (a +:+ sep +:+ b) b = true.
Proof. rewrite <- app_assoc_s. apply HasSuffix_app. Qed.

(** ** The version-suffix pattern *)

Lemma allDigits_hyphen (x y : string) : allDigits (x +:+ String "-" y) = false.
Proof.
  induction x as [|c x IH]; [done|].
  rewrite app_cons. simpl. rewrite IH. apply andb_false_r.
Qed.

Lemma re_matchHere_digits (N : string) :
  N ≠ "" → allDigits N = true → re_matchHere ("-v" +:+ N) = true.
Proof. destruct N as [|d N]; [done|]. intros _ H. exact H. Qed.

(** A match cannot start before the last hyphen of a name that ends in
    ["-v"] and digits. *)
Lemma re_matchHere_before (c : ascii) (x N : string) :
  re_matchHere (String c x +:+ "-v" +:+ N) = false.
Proof.
  rewrite app_cons. change ("-v" +:+ N) with (String "-" (String "v" N)).
  destruct x as [|c2 [|d x]]; rewrite ?app_cons, ?app_nil_l.
  - simpl. by destruct (Ascii.eqb c "-").
  - simpl. by destruct (Ascii.eqb c "-"), (Ascii.eqb c2 "v").
  - pose proof (allDigits_hyphen (String d x) (String "v" N)) as H.
    rewrite app_cons in H. simpl in H.
    simpl. rewrite <- !andb_assoc, H. by rewrite !andb_false_r.
Qed.

Lemma re_ReplaceAllString_cons (c : ascii) (s : string) :
  re_ReplaceAllString (String c s)
  = if re_matchHere (String c s) then "" else String c (re_ReplaceAllString s).
Proof. reflexivity. Qed.

Lemma re_ReplaceAllString_suffix (base N : string) :
  N ≠ "" → allDigits N = true →
  re_ReplaceAllString (base +:+ "-v" +:+ N) = base.
Proof.
  intros HN HD. induction base as [|c base IH].
  - rewrite app_nil_l.
    destruct N as [|d N]; [done|].
    change ("-v" +:+ String d N) with (String "-" (String "v" (String d N))).
    rewrite re_ReplaceAllString_cons.
    change (re_matchHere (String "-" (String "v" (String d N))))
      with (allDigits (String d N)).
    by rewrite HD.
  - pose proof (re_matchHere_before c base N) as Hm.
    rewrite app_cons in Hm |- *.
    by rewrite re_ReplaceAllString_cons, Hm, IH.
Qed.

Lemma re_ReplaceAllString_cases (s : string) :
  re_ReplaceAllString s = s
  ∨ ∃ base N, N ≠ "" ∧ allDigits N = true ∧ s = base +:+ "-v" +:+ N.
Proof.
  induction s as [|c s IH]; [by left|].
  destruct (re_matchHere (String c s)) eqn:Hm.
  - right. exists "".
    destruct s as [|c2 [|d rest]]; try done.
    simpl in Hm.
    apply andb_prop in Hm as [Hm Hrest].
    apply andb_prop in Hm as [Hm Hd].
    apply andb_prop in Hm as [H1 H2].
    apply Ascii.eqb_eq in H1, H2. subst.
    exists (String d rest). split; [done|]. split; [|done].
    simpl. by rewrite Hd, Hrest.
  - destruct IH as [IH | (base & N & HN & HD & ->)].
    + left. by rewrite re_ReplaceAllString_cons, Hm, IH.
    + right. exists (String c base), N. by rewrite app_cons.
Qed.

(** C3. The group directory of an entry: a raw name of the form
    base, ["-v"], one or more digits is cut back to base; any other raw name
    is kept as it is. *)
Theorem group_key_strips_version_suffix :
  (∀ base N : string,
     N ≠ "" → allDigits N = true →
     re_ReplaceAllString (base +:+ "-v" +:+ N) = base)
  ∧ (∀ name : string,
       (∀ base N : string,
          N ≠ "" → allDigits N = true → name ≠ base +:+ "-v" +:+ N) →
       re_ReplaceAllString name = name).
Proof.
  split; [exact re_ReplaceAllString_suffix|].
  intros name Hno.
  destruct (re_ReplaceAllString_cases name) as [H | (base & N & HN & HD & Heq)];
    [done|].
  by destruct (Hno base N HN HD).
Qed.

Lemma group_key_strips_version_suffix_witness :
  re_ReplaceAllString ("orders" +:+ "-v" +:+ "2") = "orders"
  ∧ re_ReplaceAllString "billing" = "billing".
Proof.
  split.
  - apply (proj1 group_key_strips_version_suffix); [discriminate | reflexivity].
  - apply (proj2 group_key_strips_version_suffix).
    intros base N HN HD Heq.
    assert (Hb : re_ReplaceAllString "billing" = base).
    { rewrite Heq. by apply (proj1 group_key_strips_version_suffix). }
    vm_compute in Hb. subst base.
    apply (f_equal String.length) in Heq.
    rewrite !length_app_s in Heq. simpl in Heq. lia.
Defined.

(** ** Name qualification *)

Local Arguments strings.HasSuffix : simpl never.

Lemma qualify_cases (api : AzureApi.t) :
  let v := AzureApi.ApiVersion api in
  let n := AzureApi.Name api in
  let d := AzureApi.DisplayName api in
  qualify api =
    if String.eqb v "" then (n, api)
    else if strings.HasSuffix n v then
      if strings.HasSuffix d v then (n, api)
      else (n, AzureApi.setDisplayName (d +:+ " " +:+ v) api)
    else (n +:+ "-" +:+ v,
          AzureApi.setDisplayName (d +:+ " " +:+ v)
            (AzureApi.setName (n +:+ "-" +:+ v) api)).
Proof.
  unfold qualify, AzureApi.ApiVersion, AzureApi.DisplayName. cbn zeta.
  destruct (String.eqb _ "") eqn:Hv; cbn [negb andb].
  { by rewrite Hv. }
  destruct (strings.HasSuffix (AzureApi.Name api) _) eqn:Hn; cbn [negb andb].
  - rewrite Hv. cbn [negb andb].
    destruct (strings.HasSuffix (AzureApiProperties.DisplayName _) _);
      reflexivity.
  - cbn. rewrite Hv. cbn [negb andb]. by rewrite HasSuffix_sep.
Qed.

Ltac qualify_split api :=
  rewrite (qualify_cases api); cbn zeta;
  destruct (String.eqb (AzureApi.ApiVersion api) "") eqn:?;
  [|destruct (strings.HasSuffix (AzureApi.Name api) (AzureApi.ApiVersion api))
      eqn:?;
    [destruct (strings.HasSuffix (AzureApi.DisplayName api)
                 (AzureApi.ApiVersion api)) eqn:?|]];
  cbn [fst snd negb andb].

(** The local [newApiName] and the mutated [api.Name] are the same string:
    the file tested with [os.Open] is the file written. *)
Lemma qualify_fst (api : AzureApi.t) :
  (qualify api).1 = AzureApi.Name (qualify api).2.
Proof.
  qualify_split api; reflexivity.
Qed.

Lemma qualify_version (api : AzureApi.t) :
  AzureApi.ApiVersion (qualify api).2 = AzureApi.ApiVersion api.
Proof.
  qualify_split api; reflexivity.
Qed.

Lemma qualify_path (api : AzureApi.t) :
  AzureApi.Path (qualify api).2 = AzureApi.Path api.
Proof.
  qualify_split api; reflexivity.
Qed.

(** The qualified name depends on the raw name and the version tag alone. *)
Lemma qualify_name (api : AzureApi.t) :
  (qualify api).1 =
    if negb (String.eqb (AzureApi.ApiVersion api) "")
       && negb (strings.HasSuffix (AzureApi.Name api) (AzureApi.ApiVersion api))
    then AzureApi.Name api +:+ "-" +:+ AzureApi.ApiVersion api
    else AzureApi.Name api.
Proof.
  qualify_split api; reflexivity.
Qed.

Lemma qualify_qualified (api : AzureApi.t) :
  qualified api → qualify api = (AzureApi.Name api, api).
Proof.
  intros [Hv | [Hn Hd]]; rewrite qualify_cases; cbn zeta.
  - by rewrite Hv.
  - rewrite Hn, Hd. by destruct (String.eqb _ _).
Qed.

Lemma qualified_qualify (api : AzureApi.t) : qualified (qualify api).2.
Proof.
  unfold qualified. rewrite qualify_version.
  qualify_split api.
  - left. by apply String.eqb_eq.
  - by right.
  - right. split; [done|]. apply HasSuffix_sep.
  - right. split; apply HasSuffix_sep.
Qed.

Lemma qualify_idempotent (api : AzureApi.t) :
  qualify (qualify api).2 = qualify api.
Proof.
  rewrite (qualify_qualified _ (qualified_qualify api)), <- qualify_fst.
  by destruct (qualify api).
Qed.

(** C4. Qualifying an already qualified entry changes nothing, neither the
    qualified name nor the entry; a name that already ends in its version
    tag is kept, and so is every name under an empty version tag. *)
Theorem qualify_name_idempotent (api : AzureApi.t) :
  (qualify (qualify api).2).1 = (qualify api).1
  ∧ qualify (qualify api).2 = qualify api
  ∧ (strings.HasSuffix (AzureApi.Name api) (AzureApi.ApiVersion api) = true →
     (qualify api).1 = AzureApi.Name api)
  ∧ (AzureApi.ApiVersion api = "" → (qualify api).1 = AzureApi.Name api).
Proof.
  split; [by rewrite qualify_idempotent|].
  split; [apply qualify_idempotent|].
  rewrite qualify_name. split.
  - intros ->. by rewrite andb_false_r.
  - by intros ->.
Qed.

Lemma qualify_name_idempotent_witness :
  (qualify (qualify (Sample.api "billing" "Billing" "" "b" "v1")).2).1
  = "billing-v1"
  ∧ (qualify (Sample.api "orders-v2" "Orders" "" "orders" "v2")).1 = "orders-v2"
  ∧ (qualify (Sample.api "ping" "Ping" "" "ping" "")).1 = "ping".
Proof.
  split; [|split].
  - rewrite (proj1 (qualify_name_idempotent _)). reflexivity.
  - exact (proj1 (proj2 (proj2 (qualify_name_idempotent
             (Sample.api "orders-v2" "Orders" "" "orders" "v2")))) eq_refl).
  - exact (proj2 (proj2 (proj2 (qualify_name_idempotent
             (Sample.api "ping" "Ping" "" "ping" "")))) eq_refl).
Defined.

(** C5 (as amended). With a non-empty version tag the display name gets the
    tag appended after a space, not a hyphen: a display name that does not
    end in the tag becomes display name, space, tag; a display name that
    ends in the tag, on an entry whose raw name ends in it too, is kept. *)
Theorem qualify_display_name (api : AzureApi.t) :
  AzureApi.ApiVersion api ≠ "" →
  let v := AzureApi.ApiVersion api in
  let d := AzureApi.DisplayName api in
  let d' := AzureApi.DisplayName (qualify api).2 in
  (strings.HasSuffix d v = false → d' = d +:+ " " +:+ v)
  ∧ (strings.HasSuffix d v = true →
     strings.HasSuffix (AzureApi.Name api) v = true → d' = d).
Proof.
  intros Hv%String.eqb_neq. cbn zeta. rewrite qualify_cases. cbn zeta.
  rewrite Hv. split.
  - intros Hd. rewrite Hd.
    by destruct (strings.HasSuffix (AzureApi.Name api) (AzureApi.ApiVersion api)).
  - intros Hd Hn. by rewrite Hn, Hd.
Qed.

Lemma qualify_display_name_witness :
  AzureApi.DisplayName (qualify (Sample.api "billing" "Billing" "" "b" "v1")).2
  = "Billing v1"
  ∧ AzureApi.DisplayName
      (qualify (Sample.api "orders-v2" "Orders v2" "" "orders" "v2")).2
    = "Orders v2".
Proof.
  split.
  - apply (proj1 (qualify_display_name
                    (Sample.api "billing" "Billing" "" "b" "v1") ltac:(discriminate))).
    reflexivity.
  - apply (proj2 (qualify_display_name
                    (Sample.api "orders-v2" "Orders v2" "" "orders" "v2")
                    ltac:(discriminate))); reflexivity.
Defined.

(** C5, the claim as stated fails: the separator is a space. *)
Lemma display_name_hyphen_counterexample :
  let api := Sample.api "billing" "Billing" "" "b" "v1" in
  AzureApi.ApiVersion api ≠ ""
  ∧ strings.HasSuffix (AzureApi.DisplayName api) (AzureApi.ApiVersion api) = false
  ∧ AzureApi.DisplayName (qualify api).2 = "Billing v1"
  ∧ AzureApi.DisplayName (qualify api).2
    ≠ AzureApi.DisplayName api +:+ "-" +:+ AzureApi.ApiVersion api.
Proof. repeat split; discriminate. Qed.

(** When the raw name lacks the tag and the display name already carries
    it, the first [if] appends the tag a second time. *)
Example display_name_suffixed_twice :
  AzureApi.DisplayName (qualify (Sample.api "billing" "Billing v1" "" "b" "v1")).2
  = "Billing v1 v1".
Proof. reflexivity. Qed.

(** ** The staging area *)

Lemma mkdirs_files (ds : list string) (fs : FS) :
  files (mkdirs ds fs) = files fs.
Proof.
  revert fs. induction ds as [|d ds IH]; intros fs; simpl; [done|].
  destruct (files fs !! d); [done|]. by rewrite IH.
Qed.

Lemma mkdirs_dirs_mono (ds : list string) (fs : FS) (p : string) :
  p ∈ dirs fs → p ∈ dirs (mkdirs ds fs).
Proof.
  revert fs. induction ds as [|d ds IH]; intros fs Hp; simpl; [done|].
  destruct (files fs !! d); [done|]. apply IH. simpl. set_solver.
Qed.

Lemma mkdirs_dirs_new (ds : list string) (fs : FS) (p : string) :
  p ∈ dirs (mkdirs ds fs) → p ∈ dirs fs ∨ p ∈ ds.
Proof.
  revert fs. induction ds as [|d ds IH]; intros fs; simpl; [by left|].
  destruct (files fs !! d); [by left|].
  intros H. destruct (IH _ H) as [H' | H'].
  - simpl in H'. apply elem_of_union in H' as [H' | H']; [|by left].
    apply elem_of_singleton in H' as ->. right. apply elem_of_cons. by left.
  - right. apply elem_of_cons. by right.
Qed.

Lemma pathPrefixes_length (walked rest p : string) :
  p ∈ pathPrefixes walked rest →
  String.length p ≤ String.length walked + String.length rest.
Proof.
  revert walked. induction rest as [|c rest IH]; intros walked; simpl.
  - intros ->%list_elem_of_singleton. lia.
  - intros [H | H]%elem_of_app.
    + destruct (Ascii.eqb c "/"); [|by apply elem_of_nil in H].
      apply list_elem_of_singleton in H as ->. lia.
    + apply IH in H. rewrite length_app_s in H. simpl in H. lia.
Qed.

(** Paths that exist keep existing: nothing in the pipeline removes a file
    or a directory. *)
Lemma lookupPath_writeFile_mono (name data p : string) (fs : FS) :
  is_Some (lookupPath fs p) → is_Some (lookupPath (writeFile name data fs) p).
Proof.
  unfold writeFile. case_decide as Hd; [done|].
  unfold lookupPath. simpl.
  destruct (decide (name = p)) as [->|Hne].
  - rewrite lookup_insert_eq. by eexists.
  - by rewrite lookup_insert_ne.
Qed.

Lemma lookupPath_writeFile_same (name data : string) (fs : FS) :
  is_Some (lookupPath (writeFile name data fs) name).
Proof.
  unfold writeFile, lookupPath. case_decide as Hd.
  - destruct (files fs !! name); [done|]. by rewrite decide_True.
  - simpl. by rewrite lookup_insert_eq.
Qed.

Lemma lookupPath_writeFile_new (name data : string) (fs : FS) :
  name ∉ dirs fs →
  lookupPath (writeFile name data fs) name = Some (RegularFile data).
Proof.
  intros Hd. unfold writeFile, lookupPath. rewrite decide_False by done.
  simpl. by rewrite lookup_insert_eq.
Qed.

Lemma lookupPath_writeFile_other (name data p : string) (fs : FS) :
  name ≠ p → lookupPath (writeFile name data fs) p = lookupPath fs p.
Proof.
  intros Hne. unfold writeFile, lookupPath. case_decide; [done|]. simpl.
  by rewrite lookup_insert_ne.
Qed.

Lemma lookupPath_mkdirAll_mono (path p : string) (fs : FS) :
  is_Some (lookupPath fs p) → is_Some (lookupPath (mkdirAll path fs) p).
Proof.
  unfold mkdirAll, lookupPath. rewrite mkdirs_files.
  destruct (files fs !! p); [done|].
  case_decide as Hd; [|by intros []].
  intros _. by rewrite decide_True by by apply mkdirs_dirs_mono.
Qed.

(** [os.MkdirAll] creates nothing longer than its argument. *)
Lemma mkdirAll_dirs_longer (path p : string) (fs : FS) :
  String.length path < String.length p →
  p ∈ dirs (mkdirAll path fs) → p ∈ dirs fs.
Proof.
  intros Hlen [H | H]%mkdirs_dirs_new; [done|].
  apply pathPrefixes_length in H. simpl in H. lia.
Qed.

(** ** Running the effects *)

Ltac run :=
  unfold mbind, M_bind, mret, M_ret, fmt_Println, os_Open, os_MkdirAll,
    os_WriteFile, os_Getenv, os_ReadDir, http_Do, log_Fatal;
  cbn beta iota delta [fs requests stdout].

Lemma apiFilePath_ne_definition (baseDir newName name : string) :
  baseDir +:+ "/" +:+ newName +:+ "/" +:+ name +:+ "-oas-definition.json"
  ≠ apiFilePath baseDir newName name.
Proof.
  unfold apiFilePath. intros H.
  do 5 apply (inj (String.app _)) in H. discriminate.
Qed.

Lemma apiFilePath_ne_document (baseDir newName name SchemaType : string) :
  baseDir +:+ "/" +:+ newName +:+ "/" +:+ name +:+ "-oas." +:+ SchemaType
  ≠ apiFilePath baseDir newName name.
Proof.
  unfold apiFilePath. intros H.
  do 5 apply (inj (String.app _)) in H. discriminate.
Qed.

Lemma apiFilePath_longer (baseDir newName name : string) :
  String.length (baseDir +:+ "/" +:+ newName)
   < String.length (apiFilePath baseDir newName name).
Proof. unfold apiFilePath. rewrite !length_app_s. simpl. lia. Qed.

Section Exporter.
Context (J : json.Package).

Lemma getAzureApiSchema_run sub rg svc apiName token w st :
  ∃ schema req, getAzureApiSchema J sub rg svc apiName token w st
    = Returned schema (mkState (fs st) (requests st ++ [req]) (stdout st)).
Proof.
  unfold getAzureApiSchema. run.
  destruct (roundTrip w _) as [err | code status [body | err]]; eauto;
    destruct (Nat.eqb code 200); eauto.
Qed.

Lemma exportApi_unselected flags baseDir token apiNames api w st :
  selected flags api = false →
  exportApi J flags baseDir token apiNames api w st = Returned apiNames st.
Proof.
  intros H. unfold exportApi. fold (selected flags api). by rewrite H.
Qed.

(** An entry whose staged file exists is passed over under [OnlyNew]: only
    the progress line is printed. *)
Lemma exportApi_skip flags baseDir token apiNames api w st :
  selected flags api = true →
  AzureFlags.OnlyNew flags = true →
  is_Some (lookupPath (fs st) (stagedPath baseDir api)) →
  exportApi J flags baseDir token apiNames api w st
  = Returned apiNames
      (mkState (fs st) (requests st)
         (stdout st ++ ["Exporting " +:+ AzureApi.Name api +:+ "..."])).
Proof.
  intros Hsel Hnew Hex. unfold exportApi. fold (selected flags api).
  rewrite Hsel. unfold stagedPath in Hex.
  destruct (qualify api) as [newApiName api'] eqn:Hq. simpl in Hex.
  run. rewrite Hnew, bool_decide_true by done. reflexivity.
Qed.

(** Otherwise the entry is staged. *)
Lemma exportApi_stage flags baseDir token apiNames api w st :
  selected flags api = true →
  AzureFlags.OnlyNew flags = false ∨ lookupPath (fs st) (stagedPath baseDir api) = None →
  ∃ st',
    exportApi J flags baseDir token apiNames api w st
    = Returned (apiNames ++ [(qualify api).1]) st'
    ∧ (∀ p, is_Some (lookupPath (fs st) p) → is_Some (lookupPath (fs st') p))
    ∧ is_Some (lookupPath (fs st') (stagedPath baseDir api))
    ∧ (stagedPath baseDir api ∉ dirs (fs st) →
       lookupPath (fs st') (stagedPath baseDir api)
       = Some (RegularFile (json.MarshalIndent_AzureApi J (qualify api).2))).
Proof.
  intros Hsel Hnew. unfold exportApi. fold (selected flags api).
  rewrite Hsel. unfold stagedPath in *.
  pose proof (qualify_fst api) as Hfst.
  destruct (qualify api) as [newApiName api'] eqn:Hq. simpl in *. subst newApiName.
  run.
  assert ((AzureFlags.OnlyNew flags
           && negb (bool_decide (is_Some (lookupPath (fs st)
                (apiFilePath baseDir (re_ReplaceAllString (AzureApi.Name api))
                   (AzureApi.Name api')))))
           || negb (AzureFlags.OnlyNew flags)) = true) as ->.
  { destruct Hnew as [-> | ->]; [done|].
    rewrite bool_decide_false by (by intros []). by destruct (AzureFlags.OnlyNew flags). }
  set (dir := baseDir +:+ "/" +:+ re_ReplaceAllString (AzureApi.Name api)).
  set (path := apiFilePath baseDir (re_ReplaceAllString (AzureApi.Name api))
                 (AzureApi.Name api')).
  set (st1 := mkState _ _ _).
  destruct (getAzureApiSchema_run (AzureFlags.Subscription flags)
              (AzureFlags.ResourceGroup flags) (AzureFlags.ServiceName flags)
              (AzureApi.Name api') token w st1) as (schema & req & ->).
  destruct (negb (String.eqb (AzureApiSchema.Id schema) "")); eexists; (split; [reflexivity|]);
    cbn [fs st1].
  - split; [|split].
    + intros p Hp. do 3 apply lookupPath_writeFile_mono.
      by apply lookupPath_mkdirAll_mono.
    + do 2 apply lookupPath_writeFile_mono. apply lookupPath_writeFile_same.
    + intros Hd.
      rewrite !lookupPath_writeFile_other
        by (apply apiFilePath_ne_document || apply apiFilePath_ne_definition).
      apply lookupPath_writeFile_new. intros Hin. apply Hd.
      eapply mkdirAll_dirs_longer; [|exact Hin]. apply apiFilePath_longer.
  - split; [|split].
    + intros p Hp. apply lookupPath_writeFile_mono.
      by apply lookupPath_mkdirAll_mono.
    + apply lookupPath_writeFile_same.
    + intros Hd.
      apply lookupPath_writeFile_new. intros Hin. apply Hd.
      eapply mkdirAll_dirs_longer; [|exact Hin]. apply apiFilePath_longer.
Qed.

Lemma exportApi_revision flags baseDir token apiNames api w st :
  strings.Contains (AzureApi.Name api) ";rev=" = true →
  exportApi J flags baseDir token apiNames api w st = Returned apiNames st.
Proof.
  intros H. apply exportApi_unselected. unfold selected.
  rewrite H. apply andb_false_r.
Qed.

(** One round of the loop: it returns, what existed still exists, and a
    selected entry has its staged file afterwards. *)
Lemma exportApi_step flags baseDir token apiNames api w st :
  ∃ names st',
    exportApi J flags baseDir token apiNames api w st = Returned names st'
    ∧ (∀ p, is_Some (lookupPath (fs st) p) → is_Some (lookupPath (fs st') p))
    ∧ (selected flags api = true →
       is_Some (lookupPath (fs st') (stagedPath baseDir api))).
Proof.
  destruct (selected flags api) eqn:Hsel.
  - destruct (AzureFlags.OnlyNew flags) eqn:Hnew;
      [destruct (lookupPath (fs st) (stagedPath baseDir api)) eqn:Hex|].
    + eexists _, _. split; [by apply exportApi_skip; rewrite ?Hex|].
      split; [done|]. intros _. simpl. by rewrite Hex.
    + destruct (exportApi_stage flags baseDir token apiNames api w st Hsel)
        as (st' & -> & Hmono & Hex' & _); [by right|]. eauto.
    + destruct (exportApi_stage flags baseDir token apiNames api w st Hsel)
        as (st' & -> & Hmono & Hex' & _); [by left|]. eauto.
  - eexists _, _. split; [by apply exportApi_unselected|]. done.
Qed.

Lemma forRange_cons {A S : Type} (body : S → A → M S) x xs acc w st :
  forRange body (x :: xs) acc w st
  = match body acc x w st with
    | Returned acc' st' => forRange body xs acc' w st'
    | Exited msg st' => Exited msg st'
    end.
Proof. reflexivity. Qed.

Lemma exportLoop_stages flags baseDir token apis acc w st :
  ∃ names st',
    forRange (exportApi J flags baseDir token) apis acc w st = Returned names st'
    ∧ (∀ p, is_Some (lookupPath (fs st) p) → is_Some (lookupPath (fs st') p))
    ∧ (∀ api, api ∈ apis → selected flags api = true →
       is_Some (lookupPath (fs st') (stagedPath baseDir api))).
Proof.
  revert acc st. induction apis as [|api apis IH]; intros acc st.
  - eexists _, _. split; [reflexivity|]. split; [done|].
    by intros api ?%elem_of_nil.
  - destruct (exportApi_step flags baseDir token acc api w st)
      as (names1 & st1 & Hrun & Hmono & Hex).
    destruct (IH names1 st1) as (names & st' & Hloop & Hmono' & Hex').
    exists names, st'. rewrite forRange_cons, Hrun. split; [done|].
    split; [eauto|].
    intros a [-> | Hin]%elem_of_cons Hsel; eauto.
Qed.

Lemma exportLoop_skips flags baseDir token apis acc w st :
  AzureFlags.OnlyNew flags = true →
  (∀ api, api ∈ apis → selected flags api = true →
     is_Some (lookupPath (fs st) (stagedPath baseDir api))) →
  ∃ out,
    forRange (exportApi J flags baseDir token) apis acc w st
    = Returned acc (mkState (fs st) (requests st) out).
Proof.
  intros Hnew. revert st. induction apis as [|api apis IH]; intros st Hex.
  - exists (stdout st). by destruct st.
  - rewrite forRange_cons. destruct (selected flags api) eqn:Hsel.
    + rewrite exportApi_skip; [|done..|apply Hex; [left|done]].
      destruct (IH (mkState (fs st) (requests st)
                  (stdout st ++ ["Exporting " +:+ AzureApi.Name api +:+ "..."])))
        as [out Hout]; [|eauto].
      intros a Ha Hs. apply Hex; [by right|done].
    + rewrite exportApi_unselected by done.
      apply IH. intros a Ha Hs. apply Hex; [by right|done].
Qed.

Lemma exportLoop_withoutRevisions flags baseDir token apis acc w st :
  forRange (exportApi J flags baseDir token) apis acc w st
  = forRange (exportApi J flags baseDir token) (withoutRevisions apis) acc w st.
Proof.
  revert acc st. induction apis as [|api apis IH]; intros acc st; [done|].
  unfold withoutRevisions. rewrite filter_cons.
  destruct (strings.Contains (AzureApi.Name api) ";rev=") eqn:Hrev.
  - rewrite decide_False by done.
    rewrite forRange_cons, exportApi_revision by done. apply IH.
  - rewrite decide_True by done. rewrite !forRange_cons.
    destruct (exportApi _ _ _ _ _ _ _ _); [apply IH|done].
Qed.

Lemma sameNames_selected flags a a' :
  sameNames a a' → selected flags a' = selected flags a.
Proof. intros [Hn Hq]. unfold selected. by rewrite Hn. Qed.

Lemma sameNames_stagedPath baseDir a a' :
  sameNames a a' → stagedPath baseDir a' = stagedPath baseDir a.
Proof.
  intros [Hn Hq]. unfold stagedPath.
  by rewrite <- !qualify_fst, Hn, Hq.
Qed.

Lemma getAzureApis_run sub rg svc token w :
  ∃ apis req, ∀ st,
    getAzureApis J sub rg svc token w st = Returned apis (sent req st).
Proof.
  unfold getAzureApis. run.
  destruct (roundTrip w _) as [err | code status [body | err]]; eauto.
Qed.

Lemma getAzureToken_run clientId clientSecret tenantId w st :
  getAzureToken J clientId clientSecret tenantId w st
  = match roundTrip w (tokenRequest clientId clientSecret tenantId) with
    | http.Error err =>
        Exited ("An Error Occured " +:+ err)
               (sent (tokenRequest clientId clientSecret tenantId) st)
    | http.Response _ _ (http.ReadError err) =>
        Exited err (sent (tokenRequest clientId clientSecret tenantId) st)
    | http.Response _ _ (http.Bytes body) =>
        Returned (AzureTokenResponse.AccessToken
                    (json.Unmarshal_AzureTokenResponse J body))
                 (sent (tokenRequest clientId clientSecret tenantId) st)
    end.
Proof.
  unfold getAzureToken. run. fold (tokenRequest clientId clientSecret tenantId).
  destruct (roundTrip w _) as [err | code status [body | err]]; try done.
  by destruct (String.eqb _ "") eqn:H; [apply String.eqb_eq in H as ->|].
Qed.

(** The ways a call of [azureExport] goes, whatever the state. *)
Lemma azureExport_cases flags w :
  (∃ line, ∀ st, azureExport J flags w st = Returned [] (printed line st))
  ∨ (∃ line req, ∀ st,
       azureExport J flags w st = Returned [] (printed line (sent req st)))
  ∨ (∃ msg req, ∀ st, azureExport J flags w st = Exited msg (sent req st))
  ∨ (∃ token, ∀ st,
       azureExport J flags w st = exportApis J flags azureBaseDir token w st)
  ∨ (∃ token req, ∀ st,
       azureExport J flags w st = exportApis J flags azureBaseDir token w (sent req st)).
Proof.
  unfold azureExport.
  destruct (String.eqb (AzureFlags.Subscription flags) ""); [left; by eexists|].
  destruct (String.eqb (AzureFlags.ResourceGroup flags) ""); [left; by eexists|].
  destruct (String.eqb (AzureFlags.ServiceName flags) ""); [left; by eexists|].
  destruct (String.eqb (AzureFlags.Token flags) "");
    [|do 3 right; left; by eexists].
  run.
  destruct (negb (String.eqb (default "" (environ w !! "AZURE_TOKEN")) ""));
    [do 3 right; left; by eexists|].
  destruct (_ || _); [left; by eexists|].
  set (req := tokenRequest (default "" (environ w !! "AZURE_CLIENT_ID"))
                (default "" (environ w !! "AZURE_CLIENT_SECRET"))
                (default "" (environ w !! "AZURE_TENANT_ID"))).
  destruct (roundTrip w req) as [err | code status [body | err]] eqn:Hreq.
  - do 2 right; left. eexists _, req. intros st.
    rewrite getAzureToken_run. fold req. by rewrite Hreq.
  - destruct (String.eqb (AzureTokenResponse.AccessToken
                (json.Unmarshal_AzureTokenResponse J body)) "") eqn:Htok.
    + right; left. eexists _, req. intros st.
      rewrite getAzureToken_run. fold req. by rewrite Hreq, Htok.
    + do 4 right. eexists _, req. intros st.
      rewrite getAzureToken_run. fold req. by rewrite Hreq, Htok.
  - do 2 right; left. eexists _, req. intros st.
    rewrite getAzureToken_run. fold req. by rewrite Hreq.
Qed.

(** After one export the same export under [OnlyNew] finds every selected
    entry staged. *)
Lemma exportApis_twice flags token w st names st1 :
  AzureFlags.OnlyNew flags = true →
  exportApis J flags azureBaseDir token w st = Returned names st1 →
  ∀ st1', fs st1' = fs st1 →
  ∃ st2, exportApis J flags azureBaseDir token w st1' = Returned [] st2
         ∧ fs st2 = fs st1.
Proof.
  intros Hnew. unfold exportApis. run.
  destruct (getAzureApis_run (AzureFlags.Subscription flags)
              (AzureFlags.ResourceGroup flags) (AzureFlags.ServiceName flags)
              token w) as (apis & req & Hlist).
  rewrite !Hlist.
  intros Hrun st1' Hfs. rewrite Hlist.
  destruct (0 <? length (AzureApis.Value apis)) eqn:Hlen.
  - destruct (exportLoop_stages flags azureBaseDir token (AzureApis.Value apis) []
                w (sent req (printed ("Exporting Azure APIs for service "
                     +:+ AzureFlags.ServiceName flags +:+ "...") st)))
      as (names' & st' & Hloop & _ & Hex).
    unfold printed in Hloop. cbn [fs requests stdout] in Hloop.
    rewrite Hloop in Hrun. injection Hrun as -> ->.
    edestruct (exportLoop_skips flags azureBaseDir token (AzureApis.Value apis) []
                 w) as [out Hout]; [done| |rewrite Hout; eexists; split; [done|]].
    + intros api Hin Hsel. cbn [fs sent]. rewrite Hfs. by apply Hex.
    + by cbn [fs sent].
  - eexists. split; [reflexivity|]. by cbn [fs sent].
Qed.

Lemma exportApis_withoutRevisions flags token w st :
  exportApis J flags azureBaseDir token w st
  = exportApis (dropRevisions J) flags azureBaseDir token w st.
Proof.
  unfold exportApis, getAzureApis. run.
  destruct (roundTrip w _) as [err | code status [body | err]]; try done.
  cbn [json.Unmarshal_AzureApis dropRevisions AzureApis.Value].
  change (exportApi (dropRevisions J)) with (exportApi J).
  set (apis := AzureApis.Value (json.Unmarshal_AzureApis J body)).
  set (st1 := mkState _ _ _).
  pose proof (exportLoop_withoutRevisions flags azureBaseDir token apis [] w st1)
    as Hloop.
  destruct (withoutRevisions apis) as [|a' l'] eqn:Hw;
    destruct apis as [|a l] eqn:Ha; try done;
    cbn [length Nat.ltb Nat.leb].
Qed.

Lemma azureExport_withoutRevisions flags w st :
  azureExport J flags w st = azureExport (dropRevisions J) flags w st.
Proof.
  unfold azureExport. change "src/main/azure/apiproxies" with azureBaseDir.
  change (getAzureToken (dropRevisions J)) with (getAzureToken J).
  repeat (destruct (String.eqb _ ""); [done|]).
  destruct (String.eqb (AzureFlags.Token flags) "");
    [|apply exportApis_withoutRevisions].
  run.
  destruct (negb _); [apply exportApis_withoutRevisions|].
  destruct (_ || _); [done|].
  destruct (getAzureToken _ _ _ _ _ _); [|done].
  destruct (String.eqb _ ""); [done|apply exportApis_withoutRevisions].
Qed.

(** C6. An entry whose raw name contains [";rev="] is left out of the
    export whatever the name filter is: its round of the loop changes neither
    the staging area, nor the requests sent, nor the printed lines, nor the
    list of names; the whole export runs as it does on a listing without the
    revision entries, and so does an offramp that follows it. *)
Theorem revisions_are_never_exported (X : External) :
  (∀ flags dir token apiNames api w st,
     strings.Contains (AzureApi.Name api) ";rev=" = true →
     exportApi J flags dir token apiNames api w st = Returned apiNames st)
  ∧ (∀ flags w st,
       azureExport J flags w st = azureExport (dropRevisions J) flags w st)
  ∧ (∀ flags flags' w st,
       (azureExport J flags;; azureOfframp J X flags') w st
       = (azureExport (dropRevisions J) flags;;
          azureOfframp (dropRevisions J) X flags') w st).
Proof.
  split; [intros; by apply exportApi_revision|].
  split; [apply azureExport_withoutRevisions|].
  intros flags flags' w st.
  change (azureOfframp (dropRevisions J)) with (azureOfframp J).
  unfold mbind, M_bind. by rewrite azureExport_withoutRevisions.
Qed.

End Exporter.

(** The sample listing: the revision entry is not exported. *)
Lemma revisions_are_never_exported_witness :
  exportApi Sample.J (Sample.flags false) azureBaseDir "token" []
    (Sample.api "billing;rev=2" "Billing" "" "b" "v1") Sample.azure Sample.start
  = Returned [] Sample.start.
Proof.
  apply (proj1 (revisions_are_never_exported Sample.J Sample.X)). reflexivity.
Defined.

Example export_sample :
  azureExport Sample.J (Sample.flags true) Sample.azure Sample.start
  = Returned ["orders-v2"; "billing-v1"] Sample.exported
  ∧ readDir (fs Sample.exported) azureBaseDir = Some ["billing"; "orders"]
  ∧ readDir (fs Sample.exported) (azureBaseDir +:+ "/billing")
    = Some ["billing-v1.json"].
Proof. split; [|split]; vm_compute; reflexivity. Qed.


Lemma eqb_empty (s : string) : s ≠ "" → String.eqb s "" = false.
Proof. by intros ?%String.eqb_neq. Qed.

Section Prerequisites.
Context (J : json.Package).

End Prerequisites.



Section OfframpTransformer.
Context (J : json.Package) (X : External).

(** What [producedGeneralApi] says is what [offrampFile] does. *)
Lemma producedGeneralApi_Some flags dir azureService e f st g :
  producedGeneralApi J flags dir azureService e f st = Some g →
  ∃ file,
    lookupPath (fs st) (dir +:+ "/" +:+ e +:+ "/" +:+ f) = Some file
    ∧ AzureApi.Name (json.Unmarshal_AzureApi J (io_ReadAll file)) ≠ ""
    ∧ g = toGeneralApi flags azureService
            (json.Unmarshal_AzureApi J (io_ReadAll file)).
Proof.
  unfold producedGeneralApi.
  destruct (_ && _); [|done].
  destruct (lookupPath _ _) as [file|]; [|done].
  destruct (String.eqb _ "") eqn:Hname; [done|]. cbn [negb].
  intros [= <-]. exists file. by apply String.eqb_neq in Hname.
Qed.

Lemma offrampFile_produces flags dir baseDir azureService e f w st g :
  producedGeneralApi J flags dir azureService e f st = Some g →
  offrampFile J X flags dir baseDir azureService e () f w st
  = (os_MkdirAll (baseDir +:+ "/" +:+ e);;
     writeGeneralApi X e g;;
     os_WriteFile (baseDir +:+ "/" +:+ e +:+ "/" +:+ GeneralApi.Name g +:+ ".json")
                  (json.MarshalIndent_GeneralApi J g);;
     schemaFile ← os_Open (dir +:+ "/" +:+ e +:+ "/"
                   +:+ AzureApi.Name (json.Unmarshal_AzureApi J
                         (io_ReadAll (default Directory
                            (lookupPath (fs st) (dir +:+ "/" +:+ e +:+ "/" +:+ f)))))
                   +:+ "-oas.json");
     match schemaFile with
     | Some file =>
         os_WriteFile (baseDir +:+ "/" +:+ e +:+ "/" +:+ GeneralApi.Name g
                       +:+ "-oas.json") (io_ReadAll file)
     | None => mret ()
     end) w st.
Proof.
  unfold producedGeneralApi, offrampFile.
  destruct (_ && _); [|done].
  unfold mbind at 1, M_bind at 1, os_Open at 1.
  destruct (lookupPath _ _) as [file|]; [|done].
  destruct (negb _); [|done]. by intros [= <-].
Qed.




End OfframpTransformer.







Example apimSync_sample :
  match apimSync Sample.J Sample.X (ApimSyncInput.mk "azure" "apihub")
          (mkWorld ({[ "AZURE_TOKEN" := "token" ]} ∪ environ Sample.configured)
                   (roundTrip Sample.azure))
          Sample.start with
  | Returned out st' =>
      out = ApimSyncOutput.mk true "Sync from azure to apihub successful!"
      ∧ readDir (fs st') generalBaseDir = Some ["billing"; "orders"]
      ∧ readDir (fs st') (generalBaseDir +:+ "/orders")
        = Some ["orders-v2-azure.json"]
  | Exited _ _ => False
  end.
Proof. vm_compute. split; [|split]; reflexivity. Qed.

(** * Further properties of azure.go and webserver.go *)

(** ** More on byte strings *)

Lemma HasPrefix_app (a b : string) : strings.HasPrefix (a +:+ b) a = true.
Proof.
  unfold strings.HasPrefix. induction a as [|c a IH]; [by destruct b|].
  rewrite app_cons. simpl. destruct (ascii_dec c c); [exact IH|done].
Qed.

Lemma substring_skip (n : nat) (s : string) :
  n ≤ String.length s →
  s = String.substring 0 n s +:+ String.substring n (String.length s - n) s.
Proof.
  revert s. induction n as [|n IH]; intros s Hn.
  - rewrite Nat.sub_0_r, substring_all. by destruct s.
  - destruct s as [|c s]; simpl in *; [lia|].
    rewrite app_cons. f_equal. apply IH. lia.
Qed.

Lemma HasSuffix_inv (s suffix : string) :
  strings.HasSuffix s suffix = true → ∃ r, s = r +:+ suffix.
Proof.
  unfold strings.HasSuffix. intros [Hlen Heq]%andb_prop.
  apply Nat.leb_le in Hlen. apply String.eqb_eq in Heq.
  exists (String.substring 0 (String.length s - String.length suffix) s).
  pose proof (substring_skip (String.length s - String.length suffix) s) as Hs.
  replace (String.length s - (String.length s - String.length suffix))
    with (String.length suffix) in Hs by lia.
  rewrite Heq in Hs. apply Hs. lia.
Qed.

Lemma trimPrefix_Some (prefix s r : string) :
  trimPrefix prefix s = Some r → s = prefix +:+ r.
Proof.
  revert s. induction prefix as [|a prefix IH]; intros s; simpl.
  - by intros [= ->].
  - destruct s as [|b s]; [done|].
    destruct (Ascii.eqb a b) eqn:Hab; [|done].
    apply Ascii.eqb_eq in Hab as ->. intros Hs%IH. by rewrite app_cons, <- Hs.
Qed.

(** ** More on the staging area *)

Lemma lookupPath_exists (fs : FS) (p : string) :
  is_Some (lookupPath fs p) ↔ p ∈ dom (files fs) ∪ dirs fs.
Proof.
  unfold lookupPath. rewrite elem_of_union, elem_of_dom.
  destruct (files fs !! p) as [x|].
  - split; [intros _; left|intros _]; by eexists.
  - case_decide as Hd; split.
    + intros _. by right.
    + intros _. by eexists.
    + by intros [? ?].
    + by intros [[? ?] | ?].
Qed.

(** Every entry [os.ReadDir] returns can be opened. *)
Lemma readDir_entry (fs : FS) (dir f : string) (entries : list string) :
  readDir fs dir = Some entries → f ∈ entries →
  is_Some (lookupPath fs (dir +:+ "/" +:+ f)).
Proof.
  unfold readDir. case_decide; [|done]. intros [= <-] Hf.
  rewrite merge_sort_Permutation in Hf.
  apply list_elem_of_omap in Hf as (p & Hp & Hname).
  apply elem_of_elements in Hp. unfold entryName in Hname.
  destruct (trimPrefix _ p) as [n|] eqn:Htrim; [|done].
  destruct (_ || _); [done|]. injection Hname as ->.
  apply trimPrefix_Some in Htrim. rewrite app_assoc_s in Htrim. subst p.
  by apply lookupPath_exists.
Qed.

Lemma removeAll_below (path p : string) (fs : FS) :
  below path p = true → lookupPath (removeAll path fs) p = None.
Proof.
  intros Hb. unfold lookupPath, removeAll. simpl.
  assert (filter (λ entry : string * string, below path entry.1 = false) (files fs) !! p = None) as ->.
  { apply map_lookup_filter_None. right. intros x _. simpl. by rewrite Hb. }
  rewrite decide_False; [done|].
  intros [H _]%elem_of_filter. by rewrite Hb in H.
Qed.

Lemma removeAll_other (path p : string) (fs : FS) :
  below path p = false → lookupPath (removeAll path fs) p = lookupPath fs p.
Proof.
  intros Hb. unfold lookupPath, removeAll. simpl.
  assert (filter (λ entry : string * string, below path entry.1 = false) (files fs) !! p
          = files fs !! p) as ->.
  { destruct (files fs !! p) as [x|] eqn:Hp.
    - by apply map_lookup_filter_Some.
    - apply map_lookup_filter_None. by left. }
  destruct (files fs !! p); [done|].
  destruct (decide (p ∈ dirs fs)) as [Hin|Hin].
  - by rewrite decide_True by by apply elem_of_filter.
  - rewrite decide_False; [done|]. by intros [_ ?]%elem_of_filter.
Qed.

Lemma readDir_removeAll_below (path dir : string) (fs : FS) :
  below path dir = true → readDir (removeAll path fs) dir = None.
Proof.
  intros Hb. unfold readDir. rewrite decide_False; [done|].
  simpl. intros [H _]%elem_of_filter. by rewrite Hb in H.
Qed.

(** ** More on name qualification *)

(** X1. Qualifying an entry changes its name and its display name and
    nothing else: the result is the listed entry with the two names set. *)
Theorem qualify_changes_names_only (api : AzureApi.t) :
  (qualify api).2
  = AzureApi.setDisplayName (AzureApi.DisplayName (qualify api).2)
      (AzureApi.setName (qualify api).1 api).
Proof.
  qualify_split api; by destruct api as [? ? ? []].
Qed.

(** X2. For an entry with a version tag, the qualified name and the
    qualified display name both end in the tag. *)
Theorem qualify_ends_in_version (api : AzureApi.t) :
  AzureApi.ApiVersion api ≠ "" →
  strings.HasSuffix (qualify api).1 (AzureApi.ApiVersion api) = true
  ∧ strings.HasSuffix (AzureApi.DisplayName (qualify api).2)
      (AzureApi.ApiVersion api) = true.
Proof.
  intros Hv%String.eqb_neq. qualify_split api; [congruence|..].
  - done.
  - split; [done|apply HasSuffix_sep].
  - split; apply HasSuffix_sep.
Qed.

Lemma qualify_ends_in_version_witness :
  strings.HasSuffix (qualify (Sample.api "billing" "Billing" "" "b" "v1")).1 "v1"
  = true
  ∧ strings.HasSuffix
      (AzureApi.DisplayName (qualify (Sample.api "billing" "Billing" "" "b" "v1")).2)
      "v1" = true.
Proof.
  apply (qualify_ends_in_version (Sample.api "billing" "Billing" "" "b" "v1")).
  discriminate.
Defined.

(** ** More on the export loop *)

Section ExportTrace.
Context (J : json.Package).

Lemma getAzureApiSchema_request sub rg svc apiName token w st :
  ∃ schema, getAzureApiSchema J sub rg svc apiName token w st
    = Returned schema (sent (schemaRequest sub rg svc token apiName) st).
Proof.
  unfold getAzureApiSchema. run. fold (schemaRequest sub rg svc token apiName).
  destruct (roundTrip w _) as [err | code status [body | err]]; eauto;
    destruct (Nat.eqb code 200); eauto.
Qed.

(** One round of the loop, with everything it leaves behind. *)
Lemma exportApi_trace flags dir token acc api w st :
  ∃ new st',
    exportApi J flags dir token acc api w st = Returned (acc ++ new) st'
    ∧ (new = [] ∨ (new = [(qualify api).1] ∧ selected flags api = true))
    ∧ (AzureFlags.OnlyNew flags = false → selected flags api = true →
       new = [(qualify api).1])
    ∧ requests st'
      = requests st
        ++ (schemaRequest (AzureFlags.Subscription flags)
              (AzureFlags.ResourceGroup flags) (AzureFlags.ServiceName flags)
              token <$> new)
    ∧ (∀ p, is_Some (lookupPath (fs st) p) → is_Some (lookupPath (fs st') p))
    ∧ (∀ p, strings.HasPrefix p (dir +:+ "/") = false →
         files (fs st') !! p = files (fs st) !! p).
Proof.
  unfold exportApi. fold (selected flags api).
  destruct (selected flags api) eqn:Hsel; cycle 1.
  { exists [], st. rewrite !app_nil_r. by repeat split; [left|..]. }
  pose proof (qualify_fst api) as Hfst.
  destruct (qualify api) as [newApiName api'] eqn:Hq. simpl in Hfst. subst newApiName.
  run.
  destruct (_ || _) eqn:Hcond; cycle 1.
  { exists [], (printed ("Exporting " +:+ AzureApi.Name api +:+ "...") st).
    rewrite !app_nil_r. split; [done|]. split; [by left|].
    split; [|done].
    intros Hnew _. rewrite Hnew in Hcond. done. }
  set (st1 := mkState _ _ _).
  destruct (getAzureApiSchema_request (AzureFlags.Subscription flags)
              (AzureFlags.ResourceGroup flags) (AzureFlags.ServiceName flags)
              (AzureApi.Name api') token w st1) as (schema & ->).
  assert (Hpre : ∀ x, strings.HasPrefix
            (dir +:+ "/" +:+ x) (dir +:+ "/") = true).
  { intros x. rewrite <- app_assoc_s. apply HasPrefix_app. }
  assert (Hfiles : ∀ name data fs0 p,
            strings.HasPrefix name (dir +:+ "/") = true →
            strings.HasPrefix p (dir +:+ "/") = false →
            files (writeFile name data fs0) !! p = files fs0 !! p).
  { intros name data fs0 p Hn Hp. unfold writeFile. case_decide; [done|].
    simpl. apply lookup_insert_ne. intros ->. congruence. }
  exists [AzureApi.Name api'].
  destruct (negb (String.eqb (AzureApiSchema.Id schema) "")); eexists;
    (split; [reflexivity|]); cbn [fs requests sent st1];
    (split; [by right|]); (split; [done|]); (split; [done|]); split.
  - intros p Hp. do 3 apply lookupPath_writeFile_mono.
    by apply lookupPath_mkdirAll_mono.
  - intros p Hp. rewrite !Hfiles by (done || apply Hpre).
    unfold mkdirAll. by rewrite mkdirs_files.
  - intros p Hp. apply lookupPath_writeFile_mono.
    by apply lookupPath_mkdirAll_mono.
  - intros p Hp. rewrite !Hfiles by (done || apply Hpre).
    unfold mkdirAll. by rewrite mkdirs_files.
Qed.

Lemma selectedApis_cons flags api apis :
  selectedApis flags (api :: apis)
  = if selected flags api then api :: selectedApis flags apis
    else selectedApis flags apis.
Proof.
  unfold selectedApis. rewrite filter_cons.
  destruct (selected flags api); [by rewrite decide_True|by rewrite decide_False].
Qed.

Lemma exportLoop_trace flags dir token apis acc w st :
  ∃ new st',
    forRange (exportApi J flags dir token) apis acc w st
    = Returned (acc ++ new) st'
    ∧ new `sublist_of` ((λ api, (qualify api).1) <$> selectedApis flags apis)
    ∧ (AzureFlags.OnlyNew flags = false →
       new = (λ api, (qualify api).1) <$> selectedApis flags apis)
    ∧ requests st'
      = requests st
        ++ (schemaRequest (AzureFlags.Subscription flags)
              (AzureFlags.ResourceGroup flags) (AzureFlags.ServiceName flags)
              token <$> new)
    ∧ (∀ p, is_Some (lookupPath (fs st) p) → is_Some (lookupPath (fs st') p))
    ∧ (∀ p, strings.HasPrefix p (dir +:+ "/") = false →
         files (fs st') !! p = files (fs st) !! p).
Proof.
  revert acc st. induction apis as [|api apis IH]; intros acc st.
  - exists [], st. rewrite !app_nil_r.
    split; [done|]. split; [constructor|]. by repeat split.
  - destruct (exportApi_trace flags dir token acc api w st)
      as (new1 & st1 & Hrun & Hnew1 & Hall1 & Hreq1 & Hmono1 & Hout1).
    destruct (IH (acc ++ new1) st1)
      as (new2 & st2 & Hloop & Hsub & Hall2 & Hreq2 & Hmono2 & Hout2).
    exists (new1 ++ new2), st2.
    rewrite forRange_cons, Hrun, Hloop, selectedApis_cons, <- (assoc_L (++)).
    split; [done|]. split; [|split; [|split; [|split]]].
    + destruct Hnew1 as [-> | [-> ->]]; simpl.
      * destruct (selected flags api); [by apply sublist_cons|done].
      * by apply sublist_skip.
    + intros Hnew. rewrite (Hall2 Hnew).
      destruct (selected flags api) eqn:Hsel.
      * by rewrite (Hall1 Hnew eq_refl).
      * by destruct Hnew1 as [-> | [_ ?]].
    + by rewrite Hreq2, Hreq1, fmap_app, (assoc_L (++)).
    + eauto.
    + intros p Hp. by rewrite Hout2, Hout1.
Qed.
End ExportTrace.

Section ExportRun.
Context (J : json.Package).

Lemma getAzureApis_listed flags token w st :
  ∃ apis,
    getAzureApis J (AzureFlags.Subscription flags) (AzureFlags.ResourceGroup flags)
      (AzureFlags.ServiceName flags) token w st
    = Returned apis
        (sent (apisRequest (AzureFlags.Subscription flags)
                 (AzureFlags.ResourceGroup flags) (AzureFlags.ServiceName flags)
                 token) st)
    ∧ AzureApis.Value apis = listedApis J w flags token.
Proof.
  unfold getAzureApis, listedApis. run.
  fold (apisRequest (AzureFlags.Subscription flags)
          (AzureFlags.ResourceGroup flags) (AzureFlags.ServiceName flags) token).
  destruct (roundTrip w _) as [err | code status [body | err]]; by eexists.
Qed.

Lemma exportApis_trace flags dir token w st :
  ∃ names st',
    exportApis J flags dir token w st = Returned names st'
    ∧ names `sublist_of`
        ((λ api, (qualify api).1)
           <$> selectedApis flags (listedApis J w flags token))
    ∧ (AzureFlags.OnlyNew flags = false →
       names = (λ api, (qualify api).1)
                 <$> selectedApis flags (listedApis J w flags token))
    ∧ requests st'
      = requests st
        ++ apisRequest (AzureFlags.Subscription flags)
             (AzureFlags.ResourceGroup flags) (AzureFlags.ServiceName flags) token
           :: (schemaRequest (AzureFlags.Subscription flags)
                 (AzureFlags.ResourceGroup flags) (AzureFlags.ServiceName flags)
                 token <$> names)
    ∧ (∀ p, is_Some (lookupPath (fs st) p) → is_Some (lookupPath (fs st') p))
    ∧ (∀ p, strings.HasPrefix p (dir +:+ "/") = false →
         files (fs st') !! p = files (fs st) !! p).
Proof.
  unfold exportApis.
  unfold mbind at 1, M_bind at 1, fmt_Println at 1.
  unfold mbind at 1, M_bind at 1.
  destruct (getAzureApis_listed flags token w
              (mkState (fs st) (requests st)
                 (stdout st ++ ["Exporting Azure APIs for service "
                                +:+ AzureFlags.ServiceName flags +:+ "..."])))
    as (apis & -> & Hlist).
  rewrite <- Hlist.
  set (st1 := sent _ _).
  assert (Hloop : (if 0 <? length (AzureApis.Value apis)
                   then forRange (exportApi J flags dir token)
                          (AzureApis.Value apis) []
                   else mret []) w st1
                  = forRange (exportApi J flags dir token)
                      (AzureApis.Value apis) [] w st1).
  { by destruct (AzureApis.Value apis). }
  rewrite Hloop.
  destruct (exportLoop_trace J flags dir token (AzureApis.Value apis) [] w st1)
    as (new & st' & -> & Hsub & Hall & Hreq & Hmono & Hout).
  exists new, st'. simpl in Hreq. rewrite <- (assoc_L (++)) in Hreq.
  by repeat split.
Qed.

Lemma azureExport_with_token flags w st :
  ¬ identifierMissing flags → AzureFlags.Token flags ≠ "" →
  azureExport J flags w st
  = exportApis J flags azureBaseDir (AzureFlags.Token flags) w st.
Proof.
  intros Hid Htok. unfold azureExport, identifierMissing in *.
  by rewrite !eqb_empty by tauto.
Qed.



End ExportRun.



(** ** azureStatus *)

Section Status.
Context (J : json.Package).

Lemma statusOfApis_run flags token w st :
  statusOfApis J flags token w st
  = Returned
      (match roundTrip w (apisRequest (AzureFlags.Subscription flags)
                            (AzureFlags.ResourceGroup flags)
                            (AzureFlags.ServiceName flags) token) with
       | http.Error err => PlatformStatus.mk false err
       | http.Response code status _ =>
           if Nat.eqb code 200
           then PlatformStatus.mk true
                  (connectedMessage flags (length (listedApis J w flags token)))
           else PlatformStatus.mk false status
       end)
      (sent (apisRequest (AzureFlags.Subscription flags)
               (AzureFlags.ResourceGroup flags) (AzureFlags.ServiceName flags)
               token) st).
Proof.
  unfold statusOfApis, listedApis. run.
  fold (apisRequest (AzureFlags.Subscription flags)
          (AzureFlags.ResourceGroup flags) (AzureFlags.ServiceName flags) token).
  destruct (roundTrip w _) as [err | code status [body | err]]; try done;
    by destruct (Nat.eqb code 200).
Qed.

(** The ways a call of [azureStatus] goes, whatever the state; they are
    those of [azureExport]. *)
Lemma azureStatus_cases flags w :
  (∃ msg, (∀ st, azureStatus J flags w st
                 = Returned (PlatformStatus.mk false msg) st)
          ∧ ∃ line, ∀ st, azureExport J flags w st = Returned [] (printed line st))
  ∨ (∃ msg req, (∀ st, azureStatus J flags w st
                       = Returned (PlatformStatus.mk false msg) (sent req st))
                ∧ ∃ line, ∀ st, azureExport J flags w st
                                = Returned [] (printed line (sent req st)))
  ∨ (∃ msg req, (∀ st, azureStatus J flags w st = Exited msg (sent req st))
                ∧ ∀ st, azureExport J flags w st = Exited msg (sent req st))
  ∨ (∃ token, (∀ st, azureStatus J flags w st = statusOfApis J flags token w st)
              ∧ ∀ st, azureExport J flags w st
                      = exportApis J flags azureBaseDir token w st)
  ∨ (∃ token req,
       (∀ st, azureStatus J flags w st = statusOfApis J flags token w (sent req st))
       ∧ ∀ st, azureExport J flags w st
               = exportApis J flags azureBaseDir token w (sent req st)).
Proof.
  unfold azureStatus, azureExport.
  change "src/main/azure/apiproxies" with azureBaseDir.
  destruct (String.eqb (AzureFlags.Subscription flags) "");
    [left; eexists; split; [done|by eexists]|].
  destruct (String.eqb (AzureFlags.ResourceGroup flags) "");
    [left; eexists; split; [done|by eexists]|].
  destruct (String.eqb (AzureFlags.ServiceName flags) "");
    [left; eexists; split; [done|by eexists]|].
  destruct (String.eqb (AzureFlags.Token flags) "");
    [|do 3 right; left; by eexists].
  run.
  destruct (negb (String.eqb (default "" (environ w !! "AZURE_TOKEN")) ""));
    [do 3 right; left; by eexists|].
  destruct (_ || _); [left; eexists; split; [done|by eexists]|].
  set (req := tokenRequest (default "" (environ w !! "AZURE_CLIENT_ID"))
                (default "" (environ w !! "AZURE_CLIENT_SECRET"))
                (default "" (environ w !! "AZURE_TENANT_ID"))).
  destruct (roundTrip w req) as [err | code status [body | err]] eqn:Hreq.
  - do 2 right; left. eexists _, req.
    split; intros st; rewrite getAzureToken_run; fold req; by rewrite Hreq.
  - destruct (String.eqb (AzureTokenResponse.AccessToken
                (json.Unmarshal_AzureTokenResponse J body)) "") eqn:Htok.
    + right; left. eexists _, req. split; [|eexists]; intros st;
        rewrite getAzureToken_run; fold req; by rewrite Hreq, Htok.
    + do 4 right. eexists _, req. split; intros st;
        rewrite getAzureToken_run; fold req; by rewrite Hreq, Htok.
  - do 2 right; left. eexists _, req.
    split; intros st; rewrite getAzureToken_run; fold req; by rewrite Hreq.
Qed.

(** X6. Without an identifier, or without a token and without complete
    client credentials, [azureStatus] reports a service that is not
    connected, sends nothing and prints nothing. *)
Theorem status_without_prerequisites flags w st :
  identifierMissing flags ∨ (tokenMissing flags w ∧ clientMissing w) →
  ∃ msg, azureStatus J flags w st = Returned (PlatformStatus.mk false msg) st.
Proof.
  unfold azureStatus.
  destruct (String.eqb (AzureFlags.Subscription flags) "") eqn:Hs; [by eexists|].
  destruct (String.eqb (AzureFlags.ResourceGroup flags) "") eqn:Hr; [by eexists|].
  destruct (String.eqb (AzureFlags.ServiceName flags) "") eqn:Hn; [by eexists|].
  apply String.eqb_neq in Hs, Hr, Hn.
  intros [[?|[?|?]] | [[Ht He] Hc]]; try done.
  rewrite Ht. cbn [String.eqb]. run. fold (getenv w "AZURE_TOKEN"). rewrite He.
  cbn [String.eqb negb].
  fold (getenv w "AZURE_CLIENT_ID") (getenv w "AZURE_CLIENT_SECRET")
       (getenv w "AZURE_TENANT_ID").
  assert (String.eqb (getenv w "AZURE_CLIENT_ID") ""
          || String.eqb (getenv w "AZURE_CLIENT_SECRET") ""
          || String.eqb (getenv w "AZURE_TENANT_ID") "" = true) as ->.
  { destruct Hc as [-> | [-> | ->]]; cbn [String.eqb];
      rewrite ?orb_true_r; done. }
  by eexists.
Qed.


(** X8. [azureStatus] never writes to the staging area and never prints,
    whether it returns or ends the process. *)
Theorem status_leaves_files_and_output flags w st :
  fs (stateOf (azureStatus J flags w st)) = fs st
  ∧ stdout (stateOf (azureStatus J flags w st)) = stdout st.
Proof.
  destruct (azureStatus_cases flags w)
    as [(msg & H & _) | [(msg & req & H & _) | [(msg & req & H & _)
        | [(token & H & _) | (token & req & H & _)]]]]; rewrite H;
    by rewrite ?statusOfApis_run.
Qed.


End Status.

(** ** azureCleanLocal *)

Section Clean.
Context (J : json.Package) (X : External).

Lemma below_azureBaseDir : below "src/main/azure" azureBaseDir = true.
Proof. reflexivity. Qed.

Lemma below_stagedPath (api : AzureApi.t) :
  below "src/main/azure" (stagedPath azureBaseDir api) = true.
Proof.
  unfold below, stagedPath, apiFilePath, azureBaseDir.
  apply orb_true_iff. right.
  change ("src/main/azure/apiproxies" +:+ ?x)
    with (("src/main/azure" +:+ "/") +:+ ("apiproxies" +:+ x)).
  apply HasPrefix_app.
Qed.

(** X11. [azureCleanLocal] returns whatever the flags; afterwards nothing
    exists at or below [src/main/azure], every other path is as before, and
    nothing was sent or printed. *)
Theorem clean_removes_the_azure_area flags w st :
  ∃ st',
    azureCleanLocal flags w st = Returned () st'
    ∧ requests st' = requests st ∧ stdout st' = stdout st
    ∧ (∀ p, below "src/main/azure" p = true → lookupPath (fs st') p = None)
    ∧ (∀ p, below "src/main/azure" p = false →
            lookupPath (fs st') p = lookupPath (fs st) p).
Proof.
  eexists. split; [reflexivity|]. cbn [fs requests stdout].
  split; [done|]. split; [done|]. split.
  - intros p. apply removeAll_below.
  - intros p. apply removeAll_other.
Qed.


End Clean.

(** ** azureServiceExport *)

Section ServiceExport.
Context (J : json.Package) (JM : jsonMap.Package).

Lemma getAzureService_run sub rg svc token w st :
  getAzureService sub rg svc token w st
  = Returned (match roundTrip w (serviceRequest sub rg svc token) with
              | http.Response _ _ (http.Bytes body) => body
              | _ => ""
              end)
             (sent (serviceRequest sub rg svc token) st).
Proof.
  unfold getAzureService. run. fold (serviceRequest sub rg svc token).
  by destruct (roundTrip w _) as [err | code status [body | err]].
Qed.



(** X16. Without an identifier, or without a token and without complete
    client credentials, [azureServiceExport] prints one line and returns,
    and nothing is sent or staged. *)
Theorem service_export_without_prerequisites flags w st :
  identifierMissing flags ∨ (tokenMissing flags w ∧ clientMissing w) →
  ∃ line, azureServiceExport J JM flags w st = Returned () (printed line st).
Proof.
  unfold azureServiceExport.
  destruct (String.eqb (AzureFlags.Subscription flags) "") eqn:Hs; [by eexists|].
  destruct (String.eqb (AzureFlags.ResourceGroup flags) "") eqn:Hr; [by eexists|].
  destruct (String.eqb (AzureFlags.ServiceName flags) "") eqn:Hn; [by eexists|].
  apply String.eqb_neq in Hs, Hr, Hn.
  intros [[?|[?|?]] | [[Ht He] Hc]]; try done.
  rewrite Ht. cbn [String.eqb].
  unfold mbind at 1, M_bind at 1, os_Getenv at 1.
  fold (getenv w "AZURE_TOKEN"). rewrite He. cbn [String.eqb negb].
  run.
  fold (getenv w "AZURE_CLIENT_ID") (getenv w "AZURE_CLIENT_SECRET")
       (getenv w "AZURE_TENANT_ID").
  assert (String.eqb (getenv w "AZURE_CLIENT_ID") ""
          || String.eqb (getenv w "AZURE_CLIENT_SECRET") ""
          || String.eqb (getenv w "AZURE_TENANT_ID") "" = true) as ->.
  { destruct Hc as [-> | [-> | ->]]; cbn [String.eqb];
      rewrite ?orb_true_r; done. }
  by eexists.
Qed.
End ServiceExport.

(** ** More on azureOfframp *)

Section OfframpRun.
Context (J : json.Package) (X : External).

Lemma HasSuffix_oas_json (q : string) :
  strings.HasSuffix q "-oas" = true →
  strings.HasSuffix (q +:+ ".json") "-oas.json" = true.
Proof.
  intros [r ->]%HasSuffix_inv. rewrite app_assoc_s.
  change ("-oas" +:+ ".json") with "-oas.json". apply HasSuffix_app.
Qed.


(** X18. The name filter is compared with the raw name in [azureExport]
    and with the group directory in [azureOfframp]: a filter that is the
    name of an entry ending in a [-v<digits>] suffix selects the entry for
    the export, and the round of [azureOfframp] for its group directory
    does nothing. *)
Theorem name_filter_misses_versioned_group flags api :
  AzureFlags.ApiName flags = AzureApi.Name api →
  strings.Contains (AzureApi.Name api) ";rev=" = false →
  re_ReplaceAllString (AzureApi.Name api) ≠ AzureApi.Name api →
  selected flags api = true
  ∧ ∀ dir baseDir azureService w st,
      offrampEntry J X flags dir baseDir azureService ()
        (re_ReplaceAllString (AzureApi.Name api)) w st
      = Returned () st.
Proof.
  intros Hname Hrev Hgroup. split.
  - unfold selected. by rewrite Hname, String.eqb_refl, orb_true_r, Hrev.
  - intros dir baseDir azureService w st. unfold offrampEntry.
    rewrite Hname.
    assert (String.eqb (AzureApi.Name api) "" = false) as ->.
    { apply String.eqb_neq. intros Hempty. apply Hgroup. by rewrite Hempty. }
    assert (String.eqb (AzureApi.Name api)
              (re_ReplaceAllString (AzureApi.Name api)) = false) as ->.
    { by apply String.eqb_neq. }
    done.
Qed.

(** What exists keeps existing through the rounds of the offramp loops. *)
Lemma offrampFile_returns flags dir baseDir azureService e f w st :
  keepsFiles X →
  is_Some (lookupPath (fs st) (dir +:+ "/" +:+ e +:+ "/" +:+ f)) →
  ∃ st',
    offrampFile J X flags dir baseDir azureService e () f w st = Returned () st'
    ∧ ∀ p, is_Some (lookupPath (fs st) p) → is_Some (lookupPath (fs st') p).
Proof.
  intros HX [file Hfile]. unfold offrampFile.
  destruct (_ && _); [|by exists st].
  unfold mbind at 1, M_bind at 1, os_Open at 1. rewrite Hfile.
  destruct (negb _); [|by exists st].
  set (g := toGeneralApi _ _ _).
  unfold mbind at 1, M_bind at 1, os_MkdirAll at 1.
  unfold mbind at 1, M_bind at 1.
  destruct (HX e g w (mkState (mkdirAll (baseDir +:+ "/" +:+ e) (fs st))
                        (requests st) (stdout st))) as (st1 & -> & Hmono1).
  run.
  match goal with |- context [match lookupPath ?a ?b with _ => _ end] =>
    destruct (lookupPath a b) end;
    run; (eexists; split; [reflexivity|]);
    intros p Hp; cbn [fs] in *;
    repeat apply lookupPath_writeFile_mono; apply Hmono1; cbn [fs];
    by apply lookupPath_mkdirAll_mono.
Qed.

Lemma offrampFiles_return flags dir baseDir azureService e fileEntries w st :
  keepsFiles X →
  (∀ f, f ∈ fileEntries →
        is_Some (lookupPath (fs st) (dir +:+ "/" +:+ e +:+ "/" +:+ f))) →
  ∃ st',
    forRange (offrampFile J X flags dir baseDir azureService e) fileEntries ()
      w st = Returned () st'
    ∧ ∀ p, is_Some (lookupPath (fs st) p) → is_Some (lookupPath (fs st') p).
Proof.
  intros HX. revert st.
  induction fileEntries as [|f fileEntries IH]; intros st Hex; [by exists st|].
  destruct (offrampFile_returns flags dir baseDir azureService e f w st HX)
    as (st1 & Hrun & Hmono1); [apply Hex; by left|].
  destruct (IH st1) as (st' & Hloop & Hmono).
  { intros f' Hf'. apply Hmono1, Hex. by right. }
  exists st'. rewrite forRange_cons, Hrun. split; [done|]. eauto.
Qed.

Lemma offrampEntry_returns flags dir baseDir azureService e w st :
  keepsFiles X →
  ∃ st',
    offrampEntry J X flags dir baseDir azureService () e w st = Returned () st'
    ∧ ∀ p, is_Some (lookupPath (fs st) p) → is_Some (lookupPath (fs st') p).
Proof.
  intros HX. unfold offrampEntry. destruct (_ || _); [|by exists st].
  unfold mbind at 1, M_bind at 1, fmt_Println at 1.
  unfold mbind at 1, M_bind at 1, os_ReadDir at 1. cbn [fs].
  destruct (offrampFiles_return flags dir baseDir azureService e
              (default [] (readDir (fs st) (dir +:+ "/" +:+ e))) w
              (mkState (fs st) (requests st) (stdout st ++ [e])) HX)
    as (st' & Hrun & Hmono).
  - intros f Hf. cbn [fs].
    destruct (readDir (fs st) (dir +:+ "/" +:+ e)) as [l|] eqn:Hdir;
      [|by apply elem_of_nil in Hf].
    replace (dir +:+ "/" +:+ e +:+ "/" +:+ f)
      with ((dir +:+ "/" +:+ e) +:+ "/" +:+ f) by (by rewrite !app_assoc_s).
    eapply readDir_entry; [exact Hdir|exact Hf].
  - by exists st'.
Qed.

Lemma offrampEntries_return flags dir baseDir azureService entries w st :
  keepsFiles X →
  ∃ st',
    forRange (offrampEntry J X flags dir baseDir azureService) entries () w st
    = Returned () st'.
Proof.
  intros HX. revert st. induction entries as [|e entries IH]; intros st;
    [by exists st|].
  destruct (offrampEntry_returns flags dir baseDir azureService e w st HX)
    as (st1 & Hrun & _).
  destruct (IH st1) as (st' & Hloop).
  exists st'. by rewrite forRange_cons, Hrun.
Qed.

(** X19. When writing the general API of another file returns and removes
    nothing, [azureOfframp] returns exactly when an identifier is missing or
    the export directory can be read: no file found by [os.ReadDir] fails
    to open. *)
Theorem offramp_exits_only_without_export_directory flags w st :
  keepsFiles X →
  (∃ st', azureOfframp J X flags w st = Returned () st')
  ↔ identifierMissing flags ∨ is_Some (readDir (fs st) azureBaseDir).
Proof.
  intros HX. unfold azureOfframp, identifierMissing.
  change "src/main/azure/apiproxies" with azureBaseDir.
  destruct (String.eqb (AzureFlags.Subscription flags) "") eqn:Hs.
  { apply String.eqb_eq in Hs. split; [by left; left|by eexists]. }
  destruct (String.eqb (AzureFlags.ResourceGroup flags) "") eqn:Hr.
  { apply String.eqb_eq in Hr. split; [by left; right; left|by eexists]. }
  destruct (String.eqb (AzureFlags.ServiceName flags) "") eqn:Hn.
  { apply String.eqb_eq in Hn. split; [by left; right; right|by eexists]. }
  apply String.eqb_neq in Hs, Hr, Hn.
  unfold mbind at 1, M_bind at 1, os_ReadDir at 1.
  destruct (readDir (fs st) azureBaseDir) as [entries|].
  - split; [intros _; by right|intros _].
    unfold mbind at 1, M_bind at 1, fmt_Println at 1.
    unfold mbind at 1, M_bind at 1, loadAzureService.
    unfold mbind at 1, M_bind at 1, os_Open at 1.
    destruct (lookupPath _ _); apply offrampEntries_return, HX.
  - split; [by intros [? ?]|].
    intros [[?|[?|?]] | [? ?]]; done.
Qed.
End OfframpRun.

Lemma Sample_keepsFiles : keepsFiles Sample.X.
Proof. intros e g w st. by exists st. Qed.

Lemma offramp_exits_only_without_export_directory_witness :
  (∃ st', azureOfframp Sample.J Sample.X (Sample.flags false) Sample.azure
            (Sample.staged "orders") = Returned () st')
  ∧ ¬ ∃ st', azureOfframp Sample.J Sample.X (Sample.flags false) Sample.azure
               Sample.start = Returned () st'.
Proof.
  split.
  - apply (offramp_exits_only_without_export_directory Sample.J Sample.X
             _ _ _ Sample_keepsFiles).
    right. vm_compute. by eexists.
  - intros H.
    apply (offramp_exits_only_without_export_directory Sample.J Sample.X
             _ _ _ Sample_keepsFiles) in H as [[H|[H|H]] | [? H]];
      vm_compute in H; discriminate.
Defined.

(** ** apimStatus *)

Section StatusReport.
Context (J : json.Package) (XS : ExternalStatus).

End StatusReport.

(** ** Schema documents *)

Lemma writeFile_dirs (name data : string) (fs : FS) :
  dirs (writeFile name data fs) = dirs fs.
Proof. unfold writeFile. by case_decide. Qed.

Lemma lookupPath_mkdirAll_longer (path p : string) (fs : FS) :
  String.length path < String.length p →
  lookupPath (mkdirAll path fs) p = lookupPath fs p.
Proof.
  intros Hlen. unfold lookupPath at 1 2. unfold mkdirAll at 1.
  rewrite mkdirs_files.
  destruct (files fs !! p); [done|].
  destruct (decide (p ∈ dirs fs)) as [Hin|Hout].
  - rewrite decide_True; [done|]. by apply mkdirs_dirs_mono.
  - rewrite decide_False; [done|]. intros Hin. apply Hout.
    by eapply mkdirAll_dirs_longer.
Qed.

Section SchemaExport.
Context (J : json.Package).

Lemma getAzureApiSchema_fetch sub rg svc apiName token w st :
  getAzureApiSchema J sub rg svc apiName token w st
  = Returned
      (match roundTrip w (schemaRequest sub rg svc token apiName) with
       | http.Response code _ (http.Bytes body) =>
           if Nat.eqb code 200
           then AzureApiSchema.setDocument
                  (json.gjson_Get_String J body "properties.document")
                  (json.Unmarshal_AzureApiSchema J body)
           else AzureApiSchema.zero
       | _ => AzureApiSchema.zero
       end)
      (sent (schemaRequest sub rg svc token apiName) st).
Proof.
  unfold getAzureApiSchema. run. fold (schemaRequest sub rg svc token apiName).
  destruct (roundTrip w _) as [err | code status [body | err]]; [done| |];
    by destruct (Nat.eqb code 200).
Qed.

(** The state a staging round of the loop ends in. *)
Lemma exportApi_staged flags dir token acc api w st :
  selected flags api = true →
  AzureFlags.OnlyNew flags = false ∨ lookupPath (fs st) (stagedPath dir api) = None →
  ∃ schema,
    (∀ st0,
       getAzureApiSchema J (AzureFlags.Subscription flags)
         (AzureFlags.ResourceGroup flags) (AzureFlags.ServiceName flags)
         (qualify api).1 token w st0
       = Returned schema
           (sent (schemaRequest (AzureFlags.Subscription flags)
                    (AzureFlags.ResourceGroup flags)
                    (AzureFlags.ServiceName flags) token (qualify api).1) st0))
    ∧ let group := re_ReplaceAllString (AzureApi.Name api) in
      let staged :=
        writeFile (stagedPath dir api)
          (json.MarshalIndent_AzureApi J (qualify api).2)
          (mkdirAll (dir +:+ "/" +:+ group) (fs st)) in
      exportApi J flags dir token acc api w st
      = Returned (acc ++ [(qualify api).1])
          (mkState
             (if String.eqb (AzureApiSchema.Id schema) "" then staged
              else
                writeFile (dir +:+ "/" +:+ group +:+ "/" +:+ (qualify api).1
                           +:+ "-oas." +:+ AzureApiSchema.SchemaType schema)
                  (AzureApiSchema.Document schema)
                  (writeFile (dir +:+ "/" +:+ group +:+ "/" +:+ (qualify api).1
                              +:+ "-oas-definition.json")
                     (json.MarshalIndent_AzureApiSchema J schema) staged))
             (requests st
              ++ [schemaRequest (AzureFlags.Subscription flags)
                    (AzureFlags.ResourceGroup flags)
                    (AzureFlags.ServiceName flags) token (qualify api).1])
             (stdout st ++ ["Exporting " +:+ AzureApi.Name api +:+ "..."])).
Proof.
  intros Hsel Hnew. eexists. split; [intros st0; apply getAzureApiSchema_fetch|].
  unfold exportApi. fold (selected flags api).
  rewrite Hsel. unfold stagedPath in *.
  pose proof (qualify_fst api) as Hfst.
  destruct (qualify api) as [newApiName api'] eqn:Hq. simpl in *. subst newApiName.
  run.
  assert ((AzureFlags.OnlyNew flags
           && negb (bool_decide (is_Some (lookupPath (fs st)
                (apiFilePath dir (re_ReplaceAllString (AzureApi.Name api))
                   (AzureApi.Name api')))))
           || negb (AzureFlags.OnlyNew flags)) = true) as ->.
  { destruct Hnew as [-> | ->]; [done|].
    rewrite bool_decide_false by (by intros []).
    by destruct (AzureFlags.OnlyNew flags). }
  rewrite getAzureApiSchema_fetch.
  by destruct (String.eqb (AzureApiSchema.Id _) "").
Qed.



End SchemaExport.




(** ** The properties at the samples *)

Lemma status_without_prerequisites_witness :
  ∃ msg,
    azureStatus Sample.J (Sample.flags false) Sample.configured Sample.start
    = Returned (PlatformStatus.mk false msg) Sample.start.
Proof.
  apply (status_without_prerequisites Sample.J).
  right. split; [done|by left].
Defined.








Lemma service_export_without_prerequisites_witness :
  ∃ line,
    azureServiceExport Sample.J More.JM (Sample.flags false) Sample.configured
      Sample.start = Returned () (printed line Sample.start).
Proof.
  apply (service_export_without_prerequisites Sample.J More.JM).
  right. split; [done|by left].
Defined.


Lemma name_filter_misses_versioned_group_witness :
  selected (More.flagsFor "orders-v2") More.orders = true
  ∧ offrampEntry Sample.J Sample.X (More.flagsFor "orders-v2") azureBaseDir
      generalBaseDir Sample.service () "orders" Sample.azure
      (Sample.staged "orders")
    = Returned () (Sample.staged "orders").
Proof.
  destruct (name_filter_misses_versioned_group Sample.J Sample.X
              (More.flagsFor "orders-v2") More.orders)
    as [Hsel Hoff]; [reflexivity | reflexivity | by vm_compute |].
  split; [exact Hsel|].
  exact (Hoff azureBaseDir generalBaseDir Sample.service Sample.azure
           (Sample.staged "orders")).
Defined.

